(** * TinyStepsBD storefront: cart, catalog and checkout rules

  A shallow embedding of the client-side logic found in
  [assets/js/cart.js] (CartManager), [assets/js/data-manager.js]
  (DataManager and the utility functions that follow it) and the checkout
  script (CheckoutManager), together with the properties of those
  functions that the design document states.

  JavaScript strings are sequences of UTF-16 code units, numbers that the
  code treats as integers are [Z], and a property that may be absent is a
  [jsval].  DOM rendering is recorded as an opaque effect. *)

From Stdlib Require Import ZArith NArith List Bool Lia String Ascii.
From stdpp Require Import base list.
Import ListNotations.

Local Open Scope Z_scope.

(* ===================================================================== *)
(** ** JavaScript values and strings *)
(* ===================================================================== *)

Module Js.

(** A string is its sequence of UTF-16 code units. *)
Definition jsstring : Type := list N.

(** Code units of a literal made of ASCII characters only. *)
Definition u16 (s : string) : jsstring :=
  List.map N_of_ascii (list_ascii_of_string s).

(** A property holding a string, [null], or nothing at all. *)
Inductive jsval : Type :=
| Undefined
| Null
| Str (s : jsstring).

(** ToBoolean: [undefined], [null] and the empty string are falsy. *)
Definition truthy (v : jsval) : bool :=
  match v with
  | Str (_ :: _) => true
  | _ => false
  end.

Definition jsstring_eqb (s t : jsstring) : bool :=
  bool_decide (s = t).

(** [a === b] *)
Definition strictEq (a b : jsval) : bool :=
  match a, b with
  | Undefined, Undefined => true
  | Null, Null => true
  | Str s, Str t => jsstring_eqb s t
  | _, _ => false
  end.

(** [a || b] on values. *)
Definition orElse (a b : jsval) : jsval :=
  if truthy a then a else b.

(** [n || d] on a number that may be absent ([None]); 0 is falsy. *)
Definition numOr (n : option Z) (d : Z) : Z :=
  match n with
  | Some 0 => d
  | Some k => k
  | None => d
  end.

(** WhiteSpace and LineTerminator code points: what [\s] matches and
    what [trim] strips. *)
Definition isWhiteSpace (c : N) : bool :=
  ((c =? 9) || (c =? 10) || (c =? 11) || (c =? 12) || (c =? 13)
   || (c =? 32) || (c =? 160) || (c =? 5760)
   || ((8192 <=? c) && (c <=? 8202))
   || (c =? 8232) || (c =? 8233) || (c =? 8239) || (c =? 8287)
   || (c =? 12288) || (c =? 65279))%N.

Fixpoint trimStart (s : jsstring) : jsstring :=
  match s with
  | c :: r => if isWhiteSpace c then trimStart r else s
  | [] => []
  end.

Definition trimEnd (s : jsstring) : jsstring :=
  rev (trimStart (rev s)).

(** [s.trim()] *)
Definition trim (s : jsstring) : jsstring :=
  trimEnd (trimStart s).

(** [s.startsWith(t)] *)
Fixpoint startsWith (s t : jsstring) : bool :=
  match t, s with
  | [], _ => true
  | _ :: _, [] => false
  | d :: t', c :: s' => (c =? d)%N && startsWith s' t'
  end.

(** [s.includes(t)] *)
Fixpoint includes (s t : jsstring) : bool :=
  startsWith s t ||
  match s with
  | [] => false
  | _ :: s' => includes s' t
  end.

(** [s.replace(/\s+/g, '')]: every maximal run of white space is
    replaced by the empty string, so the scan drops each white-space
    code unit and keeps the others in order. *)
Fixpoint replaceWhiteSpaceRuns (s : jsstring) : jsstring :=
  match s with
  | [] => []
  | c :: r =>
      if isWhiteSpace c then replaceWhiteSpaceRuns r
      else c :: replaceWhiteSpaceRuns r
  end.

(** Simple case mapping of one Basic Latin code unit. *)
Definition lowerBasicLatin (c : N) : N :=
  if ((65 <=? c) && (c <=? 90))%N then (c + 32)%N else c.

(** A code unit that is Basic Latin or in the Bengali block
    (U+0980..U+09FF, a script without letter case). *)
Definition isLatinOrBengali (c : N) : bool :=
  ((c <? 128) || ((2432 <=? c) && (c <=? 2559)))%N.

(** What [toLowerCase] is known to do on strings made of Basic Latin and
    Bengali code units only: capital Latin letters are lowered, nothing
    else moves.  Stated for an arbitrary lowering function [lc]. *)
Definition lowersBasicText (lc : jsstring -> jsstring) : Prop :=
  forall s, forallb isLatinOrBengali s = true ->
            lc s = List.map lowerBasicLatin s.

(** The lowering that maps Basic Latin capitals and leaves every other
    code unit alone. *)
Definition toLowerCaseBasic (s : jsstring) : jsstring :=
  List.map lowerBasicLatin s.

(** Radix-10 digit value of a code unit. *)
Definition digitValue (c : N) : option Z :=
  if ((48 <=? c) && (c <=? 57))%N then Some (Z.of_N c - 48) else None.

(** Value of the longest prefix of decimal digits, with the number of
    digits consumed. *)
Fixpoint digitsPrefix (acc : Z) (n : nat) (s : jsstring) : Z * nat :=
  match s with
  | c :: r =>
      match digitValue c with
      | Some d => digitsPrefix (10 * acc + d) (S n) r
      | None => (acc, n)
      end
  | [] => (acc, n)
  end.

(** [parseInt(text)] for decimal text: leading white space is skipped,
    one sign is read, then the longest run of digits; [None] is NaN. *)
Definition parseIntText (s : jsstring) : option Z :=
  let s1 := trimStart s in
  let '(sign, s2) :=
    match s1 with
    | 45%N :: r => (-1, r)
    | 43%N :: r => (1, r)
    | _ => (1, s1)
    end in
  match digitsPrefix 0 0 s2 with
  | (_, O) => None
  | (v, _) => Some (sign * v)
  end.

(** [parseInt(v)]: the argument is first converted to a string;
    "undefined" and "null" have no leading digit. *)
Definition parseIntDecimal (v : jsval) : option Z :=
  match v with
  | Str s => parseIntText s
  | _ => None
  end.

End Js.
Export Js.

(* ===================================================================== *)
(** ** Regular expressions, as far as the validators use them *)
(* ===================================================================== *)

Module RegExp.

Inductive regex : Type :=
| Never
| Empty
| CharClass (p : N -> bool)
| Seq (r1 r2 : regex)
| Alt (r1 r2 : regex)
| Star (r : regex).

(** [r?] *)
Definition Opt (r : regex) : regex := Alt r Empty.

(** [r+] *)
Definition Plus (r : regex) : regex := Seq r (Star r).

(** [r{n}] *)
Fixpoint Rep (n : nat) (r : regex) : regex :=
  match n with
  | O => Empty
  | S k => Seq r (Rep k r)
  end.

(** A literal code unit and a literal string. *)
Definition Chr (c : N) : regex := CharClass (N.eqb c).

Fixpoint Lit (s : jsstring) : regex :=
  match s with
  | [] => Empty
  | c :: r => Seq (Chr c) (Lit r)
  end.

(** [\d] *)
Definition digit : regex :=
  CharClass (fun c => (48 <=? c) && (c <=? 57))%N.

Fixpoint nullable (r : regex) : bool :=
  match r with
  | Never => false
  | Empty => true
  | CharClass _ => false
  | Seq a b => nullable a && nullable b
  | Alt a b => nullable a || nullable b
  | Star _ => true
  end.

(** Brzozowski derivative by one code unit. *)
Fixpoint deriv (c : N) (r : regex) : regex :=
  match r with
  | Never => Never
  | Empty => Never
  | CharClass p => if p c then Empty else Never
  | Seq a b =>
      if nullable a then Alt (Seq (deriv c a) b) (deriv c b)
      else Seq (deriv c a) b
  | Alt a b => Alt (deriv c a) (deriv c b)
  | Star a => Seq (deriv c a) (Star a)
  end.

(** [/^r$/.test(s)]: the whole of [s] is in the language of [r]. *)
Definition test (r : regex) (s : jsstring) : bool :=
  nullable (fold_left (fun q c => deriv c q) s r).

End RegExp.

(* ===================================================================== *)
(** ** Utility functions (the tail of data-manager.js) *)
(* ===================================================================== *)

Module Utils.
Import RegExp.

(** [/^(?:\+88|01)?(?:\d{11}|\d{13})$/] *)
Definition phoneRegex : regex :=
  Seq (Opt (Alt (Lit (u16 "+88")) (Lit (u16 "01"))))
      (Alt (Rep 11 digit) (Rep 13 digit)).

Definition validatePhone (phone : jsstring) : bool :=
  test phoneRegex (replaceWhiteSpaceRuns phone).

(** [[^\s@]] *)
Definition notSpaceNorAt : regex :=
  CharClass (fun c => negb (isWhiteSpace c || (c =? 64)%N)).

(** [/^[^\s@]+@[^\s@]+\.[^\s@]+$/] *)
Definition emailRegex : regex :=
  Seq (Plus notSpaceNorAt)
      (Seq (Chr 64)
           (Seq (Plus notSpaceNorAt)
                (Seq (Chr 46) (Plus notSpaceNorAt)))).

Definition validateEmail (email : jsstring) : bool :=
  test emailRegex email.


(** The names scanned for in an address, in source order: Dhaka in
    Bengali, "Dhaka", "DHAKA", then Mirpur, Uttara, Gulshan, Banani,
    Dhanmondi, Mohammadpur, Farmgate, Shahbag, Jatrabari, Rampura and
    Badda, all in Bengali script. *)
Definition dhakaAreas : list jsstring :=
  [ [2466; 2494; 2453; 2494]%N;
    u16 "Dhaka";
    u16 "DHAKA";
    [2478; 2495; 2480; 2474; 2497; 2480]%N;
    [2441; 2468; 2509; 2468; 2480; 2494]%N;
    [2455; 2497; 2482; 2486; 2494; 2472]%N;
    [2476; 2472; 2494; 2472; 2496]%N;
    [2471; 2494; 2472; 2478; 2472; 2509; 2465; 2495]%N;
    [2478; 2507; 2489; 2494; 2478; 2509; 2478; 2470; 2474; 2497; 2480]%N;
    [2475; 2494; 2480; 2509; 2478; 2455; 2503; 2463]%N;
    [2486; 2494; 2489; 2476; 2494; 2455]%N;
    [2479; 2494; 2468; 2509; 2480; 2494; 2476; 2494; 2465; 2492; 2496]%N;
    [2480; 2494; 2478; 2474; 2497; 2480; 2494]%N;
    [2476; 2494; 2465; 2509; 2465; 2494]%N ].

Section DeliveryFee.

(** [String.prototype.toLowerCase], left abstract: the rules below do not
    depend on how it lowers. *)
Variable toLowerCase : jsstring -> jsstring.

Definition calculateDeliveryFee (address : jsval) : Z :=
  if negb (truthy address) then 150
  else
    match address with
    | Str text =>
        let addressLower := toLowerCase text in
        let isInsideDhaka :=
          existsb (fun area => includes addressLower (toLowerCase area))
                  dhakaAreas in
        if isInsideDhaka then 80 else 150
    | _ => 150 (* not reached: only a string is truthy *)
    end.

End DeliveryFee.

(** [description.replace(/\n/g, '<br>')] *)
Fixpoint replaceNewlines (s : jsstring) : jsstring :=
  match s with
  | [] => []
  | c :: r =>
      if (c =? 10)%N then u16 "<br>" ++ replaceNewlines r
      else c :: replaceNewlines r
  end.

Definition formatDescription (description : jsval) : jsstring :=
  if negb (truthy description) then []
  else
    match description with
    | Str text => replaceNewlines text
    | _ => [] (* not reached: only a string is truthy *)
    end.

End Utils.

(* ===================================================================== *)
(** ** Data Manager: the product catalog *)
(* ===================================================================== *)

Module RawProduct.

(** One record as the API returns it, by column name. *)
Record t : Type := mk {
  ProductID : jsval;
  Name : jsval;
  Description : jsval;
  PriceBDT : jsval;
  Category : jsval;
  Size : jsval;
  Color : jsval;
  DriveLink : jsval;
  ImageFolder : jsval;
  MainImage : jsval;
  Image1 : jsval;
  Image2 : jsval;
  Image3 : jsval;
  Image4 : jsval;
  Image5 : jsval;
  Image6 : jsval
}.

End RawProduct.

Module Product.

Record t : Type := mk {
  id : jsval;
  name : jsval;
  description : jsval;
  price : Z;
  category : jsval;
  size : jsval;
  color : jsval;
  driveLink : jsval;
  imageFolder : jsval;
  mainImage : jsval;
  images : list jsval;
  inStock : bool;
  featured : bool;
  badge : jsstring
}.

End Product.

Module DataManager.

Definition badges : list jsstring :=
  [u16 "new"; u16 "bestseller"; u16 "discount"; []].

(** [img && img.trim() !== ''] *)
Definition isUsableImage (img : jsval) : bool :=
  match img with
  | Str (_ :: _ as s) => negb (jsstring_eqb (trim s) [])
  | _ => false
  end.

Section Catalog.

(** [parseInt] applied to the raw price; [None] stands for NaN.  A price
    that arrives as a JSON number is represented by its string form,
    which is what [parseInt] reads. *)
Variable parseInt : jsval -> option Z.

(** [Math.floor(Math.random() * badges.length)] at the k-th record. *)
Variable randomIndex : nat -> nat.

Definition determineProductBadge (k : nat) (product : RawProduct.t)
  : jsstring :=
  nth (randomIndex k mod length badges)%nat badges [].

(** The object literal built by the [map] callback for record [k]. *)
Definition mapProduct (k : nat) (product : RawProduct.t) : Product.t :=
  {| Product.id := RawProduct.ProductID product;
     Product.name := RawProduct.Name product;
     Product.description := RawProduct.Description product;
     Product.price := numOr (parseInt (RawProduct.PriceBDT product)) 0;
     Product.category := RawProduct.Category product;
     Product.size := RawProduct.Size product;
     Product.color := RawProduct.Color product;
     Product.driveLink := RawProduct.DriveLink product;
     Product.imageFolder := RawProduct.ImageFolder product;
     Product.mainImage := RawProduct.MainImage product;
     Product.images :=
       List.filter isUsableImage
         [ RawProduct.MainImage product;
           RawProduct.Image1 product;
           RawProduct.Image2 product;
           RawProduct.Image3 product;
           RawProduct.Image4 product;
           RawProduct.Image5 product;
           RawProduct.Image6 product ];
     Product.inStock := true;
     Product.featured := false;
     Product.badge := determineProductBadge k product |}.

(** The predicate of the trailing [filter]. *)
Definition keepProduct (product : Product.t) : bool :=
  truthy (Product.id product)
  && truthy (Product.name product)
  && (0 <? Product.price product).

Definition processProducts (products : list RawProduct.t)
  : list Product.t :=
  List.filter keepProduct (imap mapProduct products).

End Catalog.

(** [this.products.find(product => product.id === productId) || null] *)
Definition getProductById (products : list Product.t) (productId : jsval)
  : option Product.t :=
  List.find (fun product => strictEq (Product.id product) productId)
            products.

Definition isProductsLoaded (products : list Product.t) : bool :=
  (0 <? length products)%nat.

(** A record with every field of a sellable product. *)
Definition rawBib : RawProduct.t :=
  RawProduct.mk (Str (u16 "P5")) (Str (u16 "Bib")) Null (Str (u16 "120"))
                Null Null Null Null Null Null Null Null Null Null Null Null.

(** A record that has no name. *)
Definition rawNameless : RawProduct.t :=
  RawProduct.mk (Str (u16 "P4")) Undefined Null (Str (u16 "90"))
                Null Null Null Null Null Null Null Null Null Null Null Null.

Definition cacheDuration : Z := 5 * 60 * 1000.

(** What the [tinystepsbd_products_cache] entry of local storage holds:
    nothing, text that does not parse, or a catalog with its time
    stamp. *)
Inductive CacheEntry : Type :=
| NoCache
| BrokenCache
| CachedAt (data : list Product.t) (timestamp : Z).

Inductive DataEffect : Type :=
| ConsoleWarn (label : jsstring)
| ConsoleError (label : jsstring)
| ProductsLoaded (detail : list Product.t)
| Notify (message kind : jsstring).

(** The fields of the data manager, the cache entry, whether local
    storage accepts writes, and what was logged, shown or dispatched so
    far, oldest first. *)
Record Store : Type := mkStore {
  products : list Product.t;
  categories : list jsval;
  cache : CacheEntry;
  cacheWritable : bool;
  isLoading : bool;
  log : list DataEffect
}.

Definition emptyStore : Store :=
  mkStore [] [] NoCache true false [].

Definition record (e : DataEffect) (st : Store) : Store :=
  mkStore (products st) (categories st) (cache st) (cacheWritable st)
          (isLoading st) (log st ++ [e]).

Definition setProducts (ps : list Product.t) (st : Store) : Store :=
  mkStore ps (categories st) (cache st) (cacheWritable st) (isLoading st)
          (log st).

Definition setLoading (b : bool) (st : Store) : Store :=
  mkStore (products st) (categories st) (cache st) (cacheWritable st) b
          (log st).

(** [product.Category]: a catalog product carries the key [category],
    in lower case, and no key [Category]. *)
Definition CategoryOf (product : Product.t) : jsval := Undefined.

(** [Set.prototype.add] on a set kept in insertion order. *)
Definition setAdd (v : jsval) (set : list jsval) : list jsval :=
  if existsb (strictEq v) set then set else set ++ [v].

Definition extractCategories (st : Store) : Store :=
  mkStore (products st)
          (fold_left (fun set product =>
                        if truthy (CategoryOf product)
                        then setAdd (CategoryOf product) set
                        else set)
                     (products st) [])
          (cache st) (cacheWritable st) (isLoading st) (log st).

Definition dispatchDataLoadedEvent (st : Store) : Store :=
  record (ProductsLoaded (products st)) st.

(** [now] is [Date.now()]. *)
Definition loadCachedData (now : Z) (st : Store) : Store :=
  match cache st with
  | NoCache => st
  | BrokenCache => record (ConsoleWarn (u16 "Failed to load cached data:")) st
  | CachedAt data timestamp =>
      if now - timestamp <? cacheDuration then
        dispatchDataLoadedEvent (extractCategories (setProducts data st))
      else st
  end.

Definition saveToCache (now : Z) (st : Store) : Store :=
  if cacheWritable st then
    mkStore (products st) (categories st) (CachedAt (products st) now)
            true (isLoading st) (log st)
  else record (ConsoleWarn (u16 "Failed to save cache:")) st.

(** How the request for the product list ends. *)
Inductive Response : Type :=
| FetchRejected
| HttpError (status : Z)
| BodyNotJson
| ApiFailure (error : jsval)
| ApiData (data : list RawProduct.t).

(** "Trouble loading products. Check the internet connection."
    (Bengali) *)
Definition msgLoadFailed : jsstring :=
  [2474; 2509; 2480; 2507; 2465; 2494; 2453; 2509; 2463; 32; 2482; 2507;
   2465; 32; 2453; 2480; 2468; 2503; 32; 2488; 2478; 2488; 2509; 2479;
   2494; 32; 2489; 2458; 2509; 2459; 2503; 2404; 32; 2439; 2472; 2509;
   2463; 2494; 2480; 2472; 2503; 2463; 32; 2453; 2494; 2472; 2503; 2453;
   2486; 2472; 32; 2458; 2503; 2453; 32; 2453; 2480; 2497; 2472; 2404]%N.

(** [array.slice(0, end)] *)
Definition sliceFromStart {A : Type} (l : list A) (finish : Z) : list A :=
  let len := Z.of_nat (length l) in
  take (Z.to_nat (if finish <? 0 then Z.max (len + finish) 0
                  else Z.min finish len)) l.

(** [limit] is [None] when the argument is left out; the default is 8. *)
Definition getFeaturedProducts (limit : option Z)
  (products : list Product.t) : list Product.t :=
  let featured := List.filter Product.featured products in
  sliceFromStart featured (match limit with Some n => n | None => 8 end).

Section Store.

Variable parseInt : jsval -> option Z.
Variable randomIndex : nat -> nat.

(** [fetchAllProducts] as one uninterrupted run: [response] is what the
    awaited request and body yield, [now] is [Date.now()] at the cache
    write.  A store that is already loading stands for a second call made
    while a first one is waiting. *)
Definition fetchAllProducts (now : Z) (response : Response) (st : Store)
  : list Product.t * Store :=
  if isLoading st then (products st, st)
  else
    let st1 := setLoading true st in
    match response with
    | ApiData data =>
        let st2 := setProducts (processProducts parseInt randomIndex data)
                               st1 in
        let st3 := dispatchDataLoadedEvent
                     (saveToCache now (extractCategories st2)) in
        (products st3, setLoading false st3)
    | _ =>
        let st2 := record (Notify msgLoadFailed (u16 "error"))
                          (record (ConsoleError
                                     (u16 "Error fetching products:")) st1)
        in
        (products st2, setLoading false st2)
    end.

End Store.

(** A product with all four searched fields present. *)
Definition completeProduct : Product.t :=
  Product.mk (Str (u16 "P1")) (Str (u16 "Romper")) (Str (u16 "Soft cotton"))
             500 (Str (u16 "Clothing")) (Str (u16 "0-6 months"))
             (Str (u16 "Blue")) Null Null (Str (u16 "romper.jpg"))
             [Str (u16 "romper.jpg")] true false [].

Section Queries.

Variable toLowerCase : jsstring -> jsstring.

(** [v.toLowerCase()]; [None] is the TypeError raised when [v] is
    [undefined] or [null]. *)
Definition lowerOf (v : jsval) : option jsstring :=
  match v with
  | Str s => Some (toLowerCase s)
  | _ => None
  end.

(** The callback of [filter] in [searchProducts]: the four tests are
    tried in order and the first that holds ends the evaluation. *)
Definition searchHit (searchTerm : jsstring) (product : Product.t)
  : option bool :=
  match lowerOf (Product.name product) with
  | None => None
  | Some name =>
      if includes name searchTerm then Some true
      else
        match lowerOf (Product.description product) with
        | None => None
        | Some description =>
            if includes description searchTerm then Some true
            else
              match lowerOf (Product.category product) with
              | None => None
              | Some category =>
                  if includes category searchTerm then Some true
                  else
                    match lowerOf (Product.color product) with
                    | None => None
                    | Some color => Some (includes color searchTerm)
                    end
              end
        end
  end.

(** [filter] with a callback that may throw. *)
Fixpoint filterOrThrow {A : Type} (f : A -> option bool) (l : list A)
  : option (list A) :=
  match l with
  | [] => Some []
  | x :: r =>
      match f x with
      | None => None
      | Some keep =>
          match filterOrThrow f r with
          | None => None
          | Some kept => Some (if keep then x :: kept else kept)
          end
      end
  end.

(** [None] is a TypeError. *)
Definition searchProducts (query : jsval) (products : list Product.t)
  : option (list Product.t) :=
  if negb (truthy query) then Some products
  else
    match query with
    | Str text =>
        let searchTerm := toLowerCase text in
        filterOrThrow (searchHit searchTerm) products
    | _ => Some products (* not reached: only a string is truthy *)
    end.

End Queries.

End DataManager.

(* ===================================================================== *)
(** ** Cart Manager *)
(* ===================================================================== *)

Module Item.

(** The argument of [addToCart]; [quantity] may be missing. *)
Record t : Type := mk {
  id : jsval;
  name : jsval;
  price : Z;
  image : jsval;
  quantity : option Z;
  color : jsval;
  size : jsval
}.

End Item.

Module CartLine.

Record t : Type := mk {
  id : jsval;
  name : jsval;
  price : Z;
  image : jsval;
  quantity : Z;
  color : jsval;
  size : jsval;
  addedAt : jsstring
}.

(** [line.quantity = q] *)
Definition setQuantity (q : Z) (line : t) : t :=
  mk (id line) (name line) (price line) (image line) q
     (color line) (size line) (addedAt line).

(** [{...line, name: n, price: p, image: i}] *)
Definition refresh (n : jsval) (p : Z) (i : jsval) (line : t) : t :=
  mk (id line) n p i (quantity line) (color line) (size line)
     (addedAt line).

End CartLine.

Module OrderItem.

(** One entry of the [products] list of an order. *)
Record t : Type := mk {
  product_id : jsval;
  product_name : jsval;
  quantity : Z;
  price : Z;
  color : jsval;
  size : jsval;
  main_image : jsval
}.

End OrderItem.

Module CartManager.

Inductive JsError : Type :=
| TypeError.

(** What an operation does to the world outside the cart list. *)
Inductive Effect : Type :=
| SetItem (key : jsstring) (value : list CartLine.t)
| ConsoleError (label : jsstring)
| UpdateCartDisplay
| CartUpdated (detail : list CartLine.t)
| ShowNotification (message : jsstring) (kind : jsstring).

(** The globals the cart code reads and writes: [cartManager.cart],
    [dataManager.products], the local-storage entry of the cart, whether
    local storage accepts writes, and the effects so far, oldest first. *)
Record World : Type := mkWorld {
  cart : list CartLine.t;
  products : list Product.t;
  savedCart : option (list CartLine.t);
  storageWritable : bool;
  effects : list Effect
}.

Inductive Outcome (A : Type) : Type :=
| Returned (a : A)
| Thrown (e : JsError).
Arguments Returned {A} a.
Arguments Thrown {A} e.

(** Computations over the world that may throw. *)
Definition M (A : Type) : Type := World -> Outcome A * World.

Definition ret {A : Type} (a : A) : M A :=
  fun w => (Returned a, w).

Definition bind {A B : Type} (m : M A) (k : A -> M B) : M B :=
  fun w =>
    match m w with
    | (Returned a, w') => k a w'
    | (Thrown e, w') => (Thrown e, w')
    end.

Definition throw {A : Type} (e : JsError) : M A :=
  fun w => (Thrown e, w).

#[export] Instance M_ret : MRet M := @ret.
#[export] Instance M_bind : MBind M := fun A B k m => bind m k.

Definition getCart : M (list CartLine.t) :=
  fun w => (Returned (cart w), w).

Definition setCart (c : list CartLine.t) : M unit :=
  fun w => (Returned tt,
            mkWorld c (products w) (savedCart w) (storageWritable w)
                    (effects w)).

Definition getProducts : M (list Product.t) :=
  fun w => (Returned (products w), w).

Definition emit (e : Effect) : M unit :=
  fun w => (Returned tt,
            mkWorld (cart w) (products w) (savedCart w) (storageWritable w)
                    (effects w ++ [e])).

Definition storageKey : jsstring := u16 "tinystepsbd_cart".

(** [localStorage.setItem] throws when storage refuses the write; the
    [catch] logs and carries on. *)
Definition saveCart : M unit :=
  fun w =>
    if storageWritable w then
      (Returned tt,
       mkWorld (cart w) (products w) (Some (cart w)) true
               (effects w ++ [SetItem storageKey (cart w)]))
    else
      emit (ConsoleError (u16 "Error saving cart:")) w.

Definition updateCartDisplay : M unit := emit UpdateCartDisplay.

Definition dispatchCartUpdate : M unit :=
  c ← getCart; emit (CartUpdated c).

Definition showNotification (message kind : jsstring) : M unit :=
  emit (ShowNotification message kind).

(** [this.cart[index]]; [None] is [undefined]. *)
Definition cartAt (c : list CartLine.t) (index : Z) : option CartLine.t :=
  if index <? 0 then None else c !! Z.to_nat index.

(** Position of the element that [Array.prototype.find] returns. *)
Fixpoint findIndex {A : Type} (p : A -> bool) (l : list A) : option nat :=
  match l with
  | [] => None
  | x :: r => if p x then Some O else option_map S (findIndex p r)
  end.

(** The callback of [find] in [addToCart]. *)
Definition sameVariant (item : Item.t) (cartItem : CartLine.t) : bool :=
  strictEq (CartLine.id cartItem) (Item.id item)
  && strictEq (CartLine.color cartItem) (Item.color item)
  && strictEq (CartLine.size cartItem) (Item.size item).

(** The object pushed by [addToCart]; [now] is
    [new Date().toISOString()]. *)
Definition newLine (now : jsstring) (item : Item.t) : CartLine.t :=
  {| CartLine.id := Item.id item;
     CartLine.name := Item.name item;
     CartLine.price := Item.price item;
     CartLine.image := Item.image item;
     CartLine.quantity := numOr (Item.quantity item) 1;
     CartLine.color := orElse (Item.color item) Null;
     CartLine.size := orElse (Item.size item) Null;
     CartLine.addedAt := now |}.

(** [item] is [None] when the caller passes [null] or [undefined]. *)
Definition addToCart (now : jsstring) (item : option Item.t) : M unit :=
  match item with
  | None => emit (ConsoleError (u16 "Invalid item:"))
  | Some item =>
      if negb (truthy (Item.id item)) then
        emit (ConsoleError (u16 "Invalid item:"))
      else
        c ← getCart;
        match findIndex (sameVariant item) c with
        | Some i =>
            (* existingItem aliases this.cart[i] *)
            setCart (alter (fun existingItem =>
                              CartLine.setQuantity
                                (CartLine.quantity existingItem
                                 + numOr (Item.quantity item) 1)
                                existingItem) i c)
        | None => setCart (c ++ [newLine now item])
        end ;;
        saveCart ;;
        updateCartDisplay ;;
        dispatchCartUpdate
  end.

Definition removeFromCart (index : Z) : M unit :=
  c ← getCart;
  if (0 <=? index) && (index <? Z.of_nat (length c)) then
    setCart (delete (Z.to_nat index) c) ;;
    saveCart ;;
    updateCartDisplay ;;
    dispatchCartUpdate
  else ret tt.

Definition updateQuantity (index quantity : Z) : M unit :=
  c ← getCart;
  if (0 <=? index) && (index <? Z.of_nat (length c)) && (0 <? quantity)
  then
    setCart (alter (CartLine.setQuantity quantity) (Z.to_nat index) c) ;;
    saveCart ;;
    updateCartDisplay ;;
    dispatchCartUpdate
  else ret tt.

Definition clearCart : M unit :=
  setCart [] ;;
  saveCart ;;
  updateCartDisplay ;;
  dispatchCartUpdate.

Definition getItemCount (c : list CartLine.t) : Z :=
  fold_left (fun total item => total + CartLine.quantity item) c 0.

Definition getSubtotal (c : list CartLine.t) : Z :=
  fold_left (fun total item =>
               total + CartLine.price item * CartLine.quantity item) c 0.

Definition getTotal (c : list CartLine.t) (deliveryFee : Z) : Z :=
  getSubtotal c + deliveryFee.

Definition isEmpty (c : list CartLine.t) : bool :=
  (length c =? 0)%nat.

(** "Some products were removed from your cart." (Bengali) *)
Definition msgProductsRemoved : jsstring :=
  [2453; 2495; 2459; 2497; 32; 2474; 2509; 2480; 2507; 2465; 2494; 2453;
   2509; 2463; 32; 2438; 2474; 2472; 2494; 2480; 32; 2453; 2494; 2480;
   2509; 2463; 32; 2469; 2503; 2453; 2503; 32; 2488; 2480; 2494; 2472;
   2507; 32; 2489; 2527; 2503; 2459; 2503; 2404]%N.

(** "At most 10 products can be ordered." (Bengali) *)
Definition msgAtMostTen : jsstring :=
  [2488; 2480; 2509; 2476; 2507; 2458; 2509; 2458; 32; 2535; 2534; 32;
   2463; 2495; 32; 2474; 2509; 2480; 2507; 2465; 2494; 2453; 2509; 2463;
   32; 2437; 2480; 2509; 2465; 2494; 2480; 32; 2453; 2480; 2494; 32; 2479;
   2494; 2476; 2503; 2404]%N.

(** One turn of the [forEach] in [validateCartItems]: the accumulator is
    [validCart] and [hasChanges]. *)
Definition validateStep (catalog : list Product.t)
  (acc : list CartLine.t * bool) (item : CartLine.t)
  : list CartLine.t * bool :=
  let '(validCart, hasChanges) := acc in
  match DataManager.getProductById catalog (CartLine.id item) with
  | Some product =>
      (validCart ++ [CartLine.refresh (Product.name product)
                                      (Product.price product)
                                      (Product.mainImage product) item],
       hasChanges)
  | None => (validCart, true)
  end.

Definition validateCartItems : M unit :=
  catalog ← getProducts;
  if negb (DataManager.isProductsLoaded catalog) then ret tt
  else
    c ← getCart;
    let '(validCart, hasChanges) :=
      fold_left (validateStep catalog) c ([], false) in
    if hasChanges then
      setCart validCart ;;
      saveCart ;;
      updateCartDisplay ;;
      current ← getCart;
      if negb (length validCart =? length current)%nat then
        showNotification msgProductsRemoved (u16 "warning")
      else ret tt
    else ret tt.

Definition decreaseQuantity (index : Z) : M unit :=
  c ← getCart;
  match cartAt c index with
  | None => throw TypeError (* item is undefined *)
  | Some item =>
      if 1 <? CartLine.quantity item then
        updateQuantity index (CartLine.quantity item - 1)
      else removeFromCart index
  end.

Definition increaseQuantity (index : Z) : M unit :=
  c ← getCart;
  match cartAt c index with
  | None => throw TypeError (* item is undefined *)
  | Some item =>
      if CartLine.quantity item <? 10 then
        updateQuantity index (CartLine.quantity item + 1)
      else showNotification msgAtMostTen (u16 "warning")
  end.

Definition removeItem (index : Z) : M unit := removeFromCart index.

(** The cart after running [m], whether it returned or threw. *)
Definition cartAfter {A : Type} (m : M A) (w : World) : list CartLine.t :=
  cart (snd (m w)).

(** The effects that running [m] appended. *)
Definition effectsOf {A : Type} (m : M A) (w : World) : list Effect :=
  drop (length (effects w)) (effects (snd (m w))).

(** A world holding cart [c], an empty catalog and writable storage. *)
Definition worldWith (c : list CartLine.t) : World :=
  mkWorld c [] None true [].

(** A world holding cart [c] and catalog [catalog]. *)
Definition worldOf (c : list CartLine.t) (catalog : list Product.t)
  : World :=
  mkWorld c catalog None true [].

(** A line for product "P1" with no color and no size, as [addToCart]
    stores it. *)
Definition lineOf (q : Z) : CartLine.t :=
  CartLine.mk (Str (u16 "P1")) (Str (u16 "Romper")) 500
              (Str (u16 "romper.jpg")) q Null Null
              (u16 "2024-01-01T00:00:00.000Z").

(** What the product page passes for "P1": color and size are the
    selections, [null] until one is made. *)
Definition pageItem (q : Z) : Item.t :=
  Item.mk (Str (u16 "P1")) (Str (u16 "Romper")) 500
          (Str (u16 "romper.jpg")) (Some q) Null Null.

(** What a product card passes for "P1": quantity 1, and neither a color
    nor a size property. *)
Definition cardItem : Item.t :=
  Item.mk (Str (u16 "P1")) (Str (u16 "Romper")) 500
          (Str (u16 "romper.jpg")) (Some 1) Undefined Undefined.

(** The line [addToCart] stores for [cardItem] at time [now]. *)
Definition cardLine (now : jsstring) : CartLine.t :=
  CartLine.mk (Str (u16 "P1")) (Str (u16 "Romper")) 500
              (Str (u16 "romper.jpg")) 1 Null Null now.

(** A line whose product "P9" is in no catalog below. *)
Definition staleLine : CartLine.t :=
  CartLine.mk (Str (u16 "P9")) (Str (u16 "Mitten")) 150
              (Str (u16 "mitten.jpg")) 1 Null Null
              (u16 "2024-01-01T00:00:00.000Z").

(** The catalog entry of "P1" after a rename and a price change. *)
Definition currentP1 : Product.t :=
  Product.mk (Str (u16 "P1")) (Str (u16 "Romper v2")) Null 650 Null Null
             Null Null Null (Str (u16 "romper2.jpg"))
             [Str (u16 "romper2.jpg")] true false [].

(** [index] addresses a line of [c]. *)
Definition validIndex (c : list CartLine.t) (index : Z) : Prop :=
  0 <= index < Z.of_nat (length c).

(** Every line has a quantity from 1 to 10. *)
Definition quantitiesInRange (c : list CartLine.t) : Prop :=
  Forall (fun line => 1 <= CartLine.quantity line <= 10) c.

(** Some line of [c] has no product in [catalog]. *)
Definition anyMissing (catalog : list Product.t) (c : list CartLine.t)
  : bool :=
  existsb (fun item =>
             match DataManager.getProductById catalog (CartLine.id item)
             with
             | Some _ => false
             | None => true
             end) c.

(** The lines of [c] that have a product in [catalog], each with the
    name, price and image of that product. *)
Definition refreshedLines (catalog : list Product.t)
  (c : list CartLine.t) : list CartLine.t :=
  omap (fun item =>
          match DataManager.getProductById catalog (CartLine.id item) with
          | Some product =>
              Some (CartLine.refresh (Product.name product)
                                     (Product.price product)
                                     (Product.mainImage product) item)
          | None => None
          end) c.

(** What reading and parsing the cart entry of local storage yields:
    nothing (or the empty string), a list of lines, or an exception. *)
Inductive StoredEntry : Type :=
| NoEntry
| ParsedEntry (c : list CartLine.t)
| BrokenEntry.

(** [loadCart], given what the read yields. *)
Definition loadCartFrom (entry : StoredEntry) : M unit :=
  match entry with
  | NoEntry => ret tt
  | ParsedEntry c => setCart c
  | BrokenEntry =>
      emit (ConsoleError (u16 "Error loading cart:")) ;;
      setCart []
  end.

Definition storedEntry (w : World) : StoredEntry :=
  match savedCart w with
  | Some c => ParsedEntry c
  | None => NoEntry
  end.

Definition loadCart : M unit :=
  fun w => loadCartFrom (storedEntry w) w.

(** [new CartManager()]: the constructor empties [cart] and [init] loads
    the stored cart and refreshes the display. *)
Definition construct : M unit :=
  setCart [] ;;
  loadCart ;;
  updateCartDisplay.

Definition getOrderItems (c : list CartLine.t) : list OrderItem.t :=
  List.map (fun item =>
              {| OrderItem.product_id := CartLine.id item;
                 OrderItem.product_name := CartLine.name item;
                 OrderItem.quantity := CartLine.quantity item;
                 OrderItem.price := CartLine.price item;
                 OrderItem.color := CartLine.color item;
                 OrderItem.size := CartLine.size item;
                 OrderItem.main_image := CartLine.image item |}) c.

(** The stored cart is the cart in memory. *)
Definition inSync (w : World) : Prop :=
  savedCart w = Some (cart w).

(** A world holding cart [c], stored as it is. *)
Definition syncedWorld (c : list CartLine.t) : World :=
  mkWorld c [] (Some c) true [].

(** The world after [this.cart] became [c] and the change was saved,
    displayed and announced: with writable storage the entry is
    rewritten, otherwise the failed write is logged. *)
Definition committed (c : list CartLine.t) (w : World) : World :=
  if storageWritable w then
    mkWorld c (products w) (Some c) true
            (effects w ++ [SetItem storageKey c; UpdateCartDisplay;
                           CartUpdated c])
  else
    mkWorld c (products w) (savedCart w) false
            (effects w ++ [ConsoleError (u16 "Error saving cart:");
                           UpdateCartDisplay; CartUpdated c]).

(** One thing that happens to the cart manager between two page loads:
    a call of one of its operations, or the data manager replacing its
    product list. *)
Inductive CartOp : Type :=
| OpAdd (now : jsstring) (item : option Item.t)
| OpRemove (index : Z)
| OpUpdate (index quantity : Z)
| OpClear
| OpIncrease (index : Z)
| OpDecrease (index : Z)
| OpValidate
| OpCatalog (catalog : list Product.t).

Definition runOp (op : CartOp) : M unit :=
  match op with
  | OpAdd now item => addToCart now item
  | OpRemove index => removeFromCart index
  | OpUpdate index quantity => updateQuantity index quantity
  | OpClear => clearCart
  | OpIncrease index => increaseQuantity index
  | OpDecrease index => decreaseQuantity index
  | OpValidate => validateCartItems
  | OpCatalog catalog =>
      fun w => (Returned tt,
                mkWorld (cart w) catalog (savedCart w) (storageWritable w)
                        (effects w))
  end.

(** The world after a sequence of such events, each handled in its own
    turn, whether it returned or threw. *)
Definition runOps (ops : list CartOp) (w : World) : World :=
  fold_left (fun w op => snd (runOp op w)) ops w.

(** A page load would find the cart as it is now: the stored cart is
    the cart in memory, or nothing is stored and the cart is empty. *)
Definition restorable (w : World) : Prop :=
  savedCart w = Some (cart w) \/ (savedCart w = None /\ cart w = []).

End CartManager.

(* ===================================================================== *)
(** ** Checkout Manager *)
(* ===================================================================== *)

Module CheckoutManager.

(** The method's own copy of the area list. *)
Definition dhakaAreas : list jsstring :=
  [ [2466; 2494; 2453; 2494]%N;
    u16 "Dhaka";
    u16 "DHAKA";
    [2478; 2495; 2480; 2474; 2497; 2480]%N;
    [2441; 2468; 2509; 2468; 2480; 2494]%N;
    [2455; 2497; 2482; 2486; 2494; 2472]%N;
    [2476; 2472; 2494; 2472; 2496]%N;
    [2471; 2494; 2472; 2478; 2472; 2509; 2465; 2495]%N;
    [2478; 2507; 2489; 2494; 2478; 2509; 2478; 2470; 2474; 2497; 2480]%N;
    [2475; 2494; 2480; 2509; 2478; 2455; 2503; 2463]%N;
    [2486; 2494; 2489; 2476; 2494; 2455]%N;
    [2479; 2494; 2468; 2509; 2480; 2494; 2476; 2494; 2465; 2492; 2496]%N;
    [2480; 2494; 2478; 2474; 2497; 2480; 2494]%N;
    [2476; 2494; 2465; 2509; 2465; 2494]%N ].

Section Delivery.

Variable toLowerCase : jsstring -> jsstring.

Definition calculateDeliveryFee (address : jsval) : Z :=
  Utils.calculateDeliveryFee toLowerCase address.

Definition getDeliveryArea (address : jsval) : jsstring :=
  if negb (truthy address) then u16 "outside"
  else
    match address with
    | Str text =>
        let addressLower := toLowerCase text in
        let isInsideDhaka :=
          existsb (fun area => includes addressLower (toLowerCase area))
                  dhakaAreas in
        if isInsideDhaka then u16 "inside_dhaka" else u16 "outside_dhaka"
    | _ => u16 "outside" (* not reached: only a string is truthy *)
    end.

End Delivery.

(** [validateField]: the verdict for the field called [fieldName] holding
    [inputValue]; the inline message is presentation. *)
Definition validateField (fieldName inputValue : jsstring) : bool :=
  let value := trim inputValue in
  if jsstring_eqb fieldName (u16 "customer_name") then
    (2 <=? length value)%nat
  else if jsstring_eqb fieldName (u16 "phone") then
    Utils.validatePhone value
  else if jsstring_eqb fieldName (u16 "address") then
    (10 <=? length value)%nat
  else if jsstring_eqb fieldName (u16 "email") then
    match value with
    | [] => true
    | _ => Utils.validateEmail value
    end
  else true.

(** [validateForm] over the required fields, each a name and a value:
    every field is visited, and one failure is enough. *)
Definition validateForm (requiredFields : list (jsstring * jsstring))
  : bool :=
  fold_left (fun isValid field =>
               if negb (validateField (fst field) (snd field)) then false
               else isValid)
            requiredFields true.

(** [handleCheckoutSubmit] goes on to build and post the order only when
    [validateForm] holds. *)
Definition submissionProceeds (requiredFields : list (jsstring * jsstring))
  : bool :=
  validateForm requiredFields.

(** The progress indicator: [totalSteps] is fixed by the constructor
    and [currentStep] starts at 1. *)
Definition totalSteps : Z := 3.

Definition initialStep : Z := 1.

Definition nextStep (currentStep : Z) : Z :=
  if currentStep <? totalSteps then currentStep + 1 else currentStep.

Definition previousStep (currentStep : Z) : Z :=
  if 1 <? currentStep then currentStep - 1 else currentStep.

Inductive StepMove : Type :=
| GoNext
| GoPrevious.

Definition moveStep (currentStep : Z) (m : StepMove) : Z :=
  match m with
  | GoNext => nextStep currentStep
  | GoPrevious => previousStep currentStep
  end.

(** The k-th step of the indicator is shown active. *)
Definition stepActive (currentStep k : Z) : bool := k <=? currentStep.

End CheckoutManager.

Module FormData.

(** The checkout form as [FormData.get] reads it: a field is a string,
    or [Null] when the form has no such field. *)
Record t : Type := mk {
  customer_name : jsval;
  phone : jsval;
  email : jsval;
  address : jsval;
  special_notes : jsval
}.

End FormData.

Module Order.

Record t : Type := mk {
  customer_name : jsval;
  phone : jsval;
  email : jsval;
  address : jsval;
  delivery_area : jsstring;
  payment_method : jsstring;
  special_notes : jsval;
  delivery_fee : Z;
  products : list OrderItem.t
}.

End Order.

Module Checkout.

Section Order.

Variable toLowerCase : jsstring -> jsstring.

(** [prepareOrderData], given the form and the cart of the moment. *)
Definition prepareOrderData (formData : FormData.t)
  (c : list CartLine.t) : Order.t :=
  let deliveryFee :=
    CheckoutManager.calculateDeliveryFee toLowerCase
      (FormData.address formData) in
  {| Order.customer_name := FormData.customer_name formData;
     Order.phone := FormData.phone formData;
     Order.email := orElse (FormData.email formData) (Str []);
     Order.address := FormData.address formData;
     Order.delivery_area :=
       CheckoutManager.getDeliveryArea toLowerCase
         (FormData.address formData);
     Order.payment_method := u16 "Cash on Delivery";
     Order.special_notes :=
       orElse (FormData.special_notes formData) (Str []);
     Order.delivery_fee := deliveryFee;
     Order.products := CartManager.getOrderItems c |}.

End Order.

(** The amount the items of an order add up to. *)
Definition itemsAmount (items : list OrderItem.t) : Z :=
  fold_right (fun item total =>
                OrderItem.price item * OrderItem.quantity item + total)
             0 items.

(** The number of pieces the items of an order add up to. *)
Definition itemsPieces (items : list OrderItem.t) : Z :=
  fold_right (fun item total => OrderItem.quantity item + total) 0 items.

End Checkout.

(* ===================================================================== *)
(** ** Vocabulary of the stated properties *)
(* ===================================================================== *)

(** [v] holds a non-empty string. *)
Definition nonEmpty (v : jsval) : Prop :=
  exists s, v = Str s /\ s <> [].

(** [t] occurs in [s] as a contiguous run of code units. *)
Definition occursIn (t s : jsstring) : Prop :=
  exists before after, s = before ++ t ++ after.

(** [s] with every white-space code unit removed. *)
Definition withoutWhiteSpace (s : jsstring) : jsstring :=
  List.filter (fun c => negb (isWhiteSpace c)) s.

(** The decimal digits, as [\d] admits them. *)
Definition isDigit (c : N) : bool := ((48 <=? c) && (c <=? 57))%N.

(** What [[^\s@]] admits: neither white space nor the at sign. *)
Definition isMailChar (c : N) : bool :=
  negb (isWhiteSpace c || (c =? 64)%N).

(** The strings a regular expression denotes. *)
Inductive matches : RegExp.regex -> jsstring -> Prop :=
| MEmpty : matches RegExp.Empty []
| MClass (p : N -> bool) (c : N) :
    p c = true -> matches (RegExp.CharClass p) [c]
| MSeq (a b : RegExp.regex) (s t : jsstring) :
    matches a s -> matches b t -> matches (RegExp.Seq a b) (s ++ t)
| MAltL (a b : RegExp.regex) (s : jsstring) :
    matches a s -> matches (RegExp.Alt a b) s
| MAltR (a b : RegExp.regex) (s : jsstring) :
    matches b s -> matches (RegExp.Alt a b) s
| MStarNil (a : RegExp.regex) : matches (RegExp.Star a) []
| MStarCons (a : RegExp.regex) (s t : jsstring) :
    matches a s -> matches (RegExp.Star a) t ->
    matches (RegExp.Star a) (s ++ t).

Import CartManager.

(** Unfolds the sequencing of cart operations. *)
Ltac run_cart :=
  unfold cartAfter, effectsOf, updateQuantity, removeFromCart, clearCart,
    addToCart, increaseQuantity, decreaseQuantity, validateCartItems,
    dispatchCartUpdate, updateCartDisplay, showNotification, saveCart,
    emit, setCart, getCart, getProducts, throw, ret,
    mbind, M_bind, bind in *;
  cbn [cart products savedCart storageWritable effects fst snd] in *.

(* ===================================================================== *)
(** ** Facts about strings and values *)
(* ===================================================================== *)

Lemma truthy_nonEmpty (v : jsval) : truthy v = true <-> nonEmpty v.
Proof.
  unfold nonEmpty. split.
  - destruct v as [| |[|c s]]; simpl; try discriminate.
    intros _. exists (c :: s). split; [reflexivity | discriminate].
  - intros (s & -> & Hs). destruct s; [contradiction | reflexivity].
Qed.

Lemma jsstring_eqb_eq (s t : jsstring) : jsstring_eqb s t = true <-> s = t.
Proof. unfold jsstring_eqb. apply bool_decide_eq_true. Qed.

Lemma strictEq_eq (a b : jsval) : strictEq a b = true <-> a = b.
Proof.
  destruct a, b; simpl; try (split; [discriminate | congruence]);
    try (split; reflexivity).
  rewrite jsstring_eqb_eq. split; congruence.
Qed.

Lemma startsWith_app (s t : jsstring) :
  startsWith s t = true <-> exists after, s = t ++ after.
Proof.
  revert s. induction t as [|d t IH]; intros s.
  - split; [intros _; exists s; reflexivity | destruct s; reflexivity].
  - destruct s as [|c s]; simpl.
    + split; [discriminate | intros (after & H); discriminate].
    + rewrite andb_true_iff, N.eqb_eq, IH. split.
      * intros (-> & after & ->). exists after. reflexivity.
      * intros (after & H). injection H as -> ->. eauto.
Qed.

Lemma includes_occursIn (s t : jsstring) :
  includes s t = true <-> occursIn t s.
Proof.
  unfold occursIn. induction s as [|c s IH].
  - cbn [includes]. rewrite orb_false_r, startsWith_app. split.
    + intros (after & H). exists [], after. exact H.
    + intros (before & after & H).
      destruct before; simpl in H.
      * eauto.
      * discriminate.
  - cbn [includes]. rewrite orb_true_iff, startsWith_app, IH. split.
    + intros [(after & H) | (before & after & H)].
      * exists [], after. exact H.
      * exists (c :: before), after. simpl. congruence.
    + intros (before & after & H). destruct before as [|b before].
      * left. exists after. exact H.
      * right. simpl in H. injection H as _ H. eauto.
Qed.

Lemma replaceWhiteSpaceRuns_filter (s : jsstring) :
  replaceWhiteSpaceRuns s = withoutWhiteSpace s.
Proof.
  unfold withoutWhiteSpace.
  induction s as [|c s IH]; simpl; [reflexivity|].
  destruct (isWhiteSpace c); simpl; congruence.
Qed.

Lemma withoutWhiteSpace_idem (s : jsstring) :
  withoutWhiteSpace (withoutWhiteSpace s) = withoutWhiteSpace s.
Proof.
  unfold withoutWhiteSpace.
  induction s as [|c s IH]; simpl; [reflexivity|].
  destruct (isWhiteSpace c) eqn:E; simpl; [exact IH|].
  rewrite E. simpl. congruence.
Qed.

Lemma toLowerCaseBasic_lowers : lowersBasicText toLowerCaseBasic.
Proof. intros s _. reflexivity. Qed.

Lemma dhakaAreas_same : CheckoutManager.dhakaAreas = Utils.dhakaAreas.
Proof. reflexivity. Qed.

(* ===================================================================== *)
(** ** Phone validation *)
(* ===================================================================== *)

Example validatePhone_plus88 :
  Utils.validatePhone (u16 "+8801712345678") = true.
Proof. vm_compute. reflexivity. Qed.

Example validateEmail_simple :
  Utils.validateEmail (u16 "a@b.co") = true /\
  Utils.validateEmail (u16 "a b@c.d") = false.
Proof. split; vm_compute; reflexivity. Qed.

Example parseInt_samples :
  parseIntDecimal (Str (u16 "  250 BDT")) = Some 250 /\
  parseIntDecimal (Str (u16 "-5")) = Some (-5) /\
  parseIntDecimal (Str (u16 "abc")) = None /\
  parseIntDecimal Undefined = None.
Proof. repeat split; vm_compute; reflexivity. Qed.

Lemma validateForm_false_stays (fields : list (jsstring * jsstring)) :
  fold_left (fun isValid field =>
               if negb (CheckoutManager.validateField (fst field)
                                                      (snd field))
               then false else isValid) fields false = false.
Proof.
  induction fields as [|f fields IH]; simpl; [reflexivity|].
  destruct (CheckoutManager.validateField _ _); exact IH.
Qed.

Lemma validateForm_rejects (before after : list (jsstring * jsstring))
  (name value : jsstring) :
  CheckoutManager.validateField name value = false ->
  CheckoutManager.validateForm (before ++ (name, value) :: after) = false.
Proof.
  intros Hbad. unfold CheckoutManager.validateForm.
  rewrite fold_left_app. simpl. rewrite Hbad. simpl.
  apply validateForm_false_stays.
Qed.

(** C8. The phone validator rejects "123" and accepts "01712345678"; the
    checkout field check for [phone] gives the same verdicts, and a form
    whose required fields include phone "123" is not submitted. *)
Theorem C8_phone_examples :
  Utils.validatePhone (u16 "123") = false /\
  Utils.validatePhone (u16 "01712345678") = true /\
  CheckoutManager.validateField (u16 "phone") (u16 "123") = false /\
  CheckoutManager.validateField (u16 "phone") (u16 "01712345678") = true /\
  (forall before after,
     CheckoutManager.submissionProceeds
       (before ++ (u16 "phone", u16 "123") :: after) = false).
Proof.
  repeat split; try (vm_compute; reflexivity).
  intros before after. unfold CheckoutManager.submissionProceeds.
  apply validateForm_rejects. vm_compute. reflexivity.
Qed.

(** C10. [validatePhone] ignores white space: its verdict on [s] is its
    verdict on [s] with all white-space characters removed, so
    "017 1234 5678" is accepted exactly when "01712345678" is. *)
Theorem C10_validatePhone_ignores_whitespace :
  (forall s : jsstring,
     Utils.validatePhone s = Utils.validatePhone (withoutWhiteSpace s)) /\
  Utils.validatePhone (u16 "017 1234 5678")
  = Utils.validatePhone (u16 "01712345678").
Proof.
  assert (H : forall s : jsstring,
             Utils.validatePhone s
             = Utils.validatePhone (withoutWhiteSpace s)).
  { intros s. unfold Utils.validatePhone.
    rewrite !replaceWhiteSpaceRuns_filter, withoutWhiteSpace_idem.
    reflexivity. }
  split; [exact H|].
  rewrite (H (u16 "017 1234 5678")). reflexivity.
Qed.

(* ===================================================================== *)
(** ** Delivery fee and delivery area *)
(* ===================================================================== *)

Section DeliveryFacts.

Variable toLowerCase : jsstring -> jsstring.

(** The scan both functions make over their area list. *)
Lemma scan_occurs (text : jsstring) :
  existsb (fun area => includes (toLowerCase text) (toLowerCase area))
          Utils.dhakaAreas = true
  <-> exists area, In area Utils.dhakaAreas /\
                   occursIn (toLowerCase area) (toLowerCase text).
Proof.
  rewrite existsb_exists. split; intros (area & Hin & H); exists area;
    (split; [exact Hin|]); apply includes_occursIn; exact H.
Qed.

Lemma fee_of_text (c : N) (text : jsstring) :
  Utils.calculateDeliveryFee toLowerCase (Str (c :: text))
  = if existsb (fun area => includes (toLowerCase (c :: text))
                                     (toLowerCase area))
               Utils.dhakaAreas
    then 80 else 150.
Proof. reflexivity. Qed.

Lemma area_of_text (c : N) (text : jsstring) :
  CheckoutManager.getDeliveryArea toLowerCase (Str (c :: text))
  = if existsb (fun area => includes (toLowerCase (c :: text))
                                     (toLowerCase area))
               Utils.dhakaAreas
    then u16 "inside_dhaka" else u16 "outside_dhaka".
Proof. reflexivity. Qed.

Lemma inside_text (text : jsstring) :
  text <> [] ->
  (exists area, In area Utils.dhakaAreas /\
                occursIn (toLowerCase area) (toLowerCase text)) ->
  Utils.calculateDeliveryFee toLowerCase (Str text) = 80 /\
  CheckoutManager.getDeliveryArea toLowerCase (Str text)
  = u16 "inside_dhaka".
Proof.
  intros Hne Hex. destruct text as [|c text]; [contradiction|].
  apply scan_occurs in Hex.
  rewrite fee_of_text, area_of_text, Hex. split; reflexivity.
Qed.

Lemma outside_text (text : jsstring) :
  text <> [] ->
  (forall area, In area Utils.dhakaAreas ->
                ~ occursIn (toLowerCase area) (toLowerCase text)) ->
  Utils.calculateDeliveryFee toLowerCase (Str text) = 150 /\
  CheckoutManager.getDeliveryArea toLowerCase (Str text)
  = u16 "outside_dhaka".
Proof.
  intros Hne Hno. destruct text as [|c text]; [contradiction|].
  rewrite fee_of_text, area_of_text.
  destruct (existsb _ _) eqn:E.
  - apply scan_occurs in E. destruct E as (area & Hin & Hocc).
    destruct (Hno area Hin Hocc).
  - split; reflexivity.
Qed.

End DeliveryFacts.

Lemma existsb_agree {A : Type} (f g : A -> bool) (l : list A) :
  (forall x, In x l -> f x = g x) -> existsb f l = existsb g l.
Proof.
  induction l as [|a l IH]; intros H; simpl; [reflexivity|].
  rewrite (H a (or_introl eq_refl)), IH; [reflexivity|].
  intros x Hx. apply H. right. exact Hx.
Qed.

(** On an address of Basic Latin and Bengali text, any lowering that is
    right on such text gives the scan of the basic lowering. *)
Lemma scan_basic (lc : jsstring -> jsstring) (text : jsstring) :
  lowersBasicText lc ->
  forallb isLatinOrBengali text = true ->
  existsb (fun area => includes (lc text) (lc area)) Utils.dhakaAreas
  = existsb (fun area => includes (toLowerCaseBasic text)
                                  (toLowerCaseBasic area))
            Utils.dhakaAreas.
Proof.
  intros Hlc Htext. rewrite (Hlc text Htext).
  apply existsb_agree. intros area Hin.
  assert (Harea : forallb isLatinOrBengali area = true).
  { assert (Hall : forallb (forallb isLatinOrBengali) Utils.dhakaAreas
                   = true) by (vm_compute; reflexivity).
    rewrite forallb_forall in Hall. apply Hall, Hin. }
  rewrite (Hlc area Harea). reflexivity.
Qed.

(** C5. The two copies of the delivery rule agree on every address: the
    fee is 80 exactly when the area tag is [inside_dhaka], and 150
    exactly when the tag is [outside_dhaka] or [outside]; the checkout
    method for the fee is the utility function. *)
Theorem C5_fee_and_area_agree (toLowerCase : jsstring -> jsstring)
  (address : jsval) :
  (Utils.calculateDeliveryFee toLowerCase address = 80
   <-> CheckoutManager.getDeliveryArea toLowerCase address
       = u16 "inside_dhaka") /\
  (Utils.calculateDeliveryFee toLowerCase address = 150
   <-> (CheckoutManager.getDeliveryArea toLowerCase address
        = u16 "outside_dhaka"
        \/ CheckoutManager.getDeliveryArea toLowerCase address
           = u16 "outside")) /\
  CheckoutManager.calculateDeliveryFee toLowerCase address
  = Utils.calculateDeliveryFee toLowerCase address.
Proof.
  split; [|split; [|reflexivity]].
  - destruct address as [| |[|c text]];
      try (split; intros H; vm_compute in H; discriminate).
    rewrite fee_of_text, area_of_text.
    destruct (existsb _ _); split; intros H;
      try reflexivity; vm_compute in H; discriminate.
  - destruct address as [| |[|c text]];
      try (split; intros _; [right|]; reflexivity).
    rewrite fee_of_text, area_of_text.
    destruct (existsb _ _); split.
    + discriminate.
    + intros [H|H]; vm_compute in H; discriminate.
    + intros _. left. reflexivity.
    + reflexivity.
Qed.

(** C4. For a non-empty address, the fee is 80 and the tag
    [inside_dhaka] when the lowered address contains the lowered form of
    some listed area name, and 150 and [outside_dhaka] when it contains
    none; the empty address gives 150 and [outside].  With a lowering that
    is right on Latin and Bengali text, "12 Road, Dhanmondi, Dhaka" gives
    80 / [inside_dhaka] and "Village X, Rangpur" gives 150 /
    [outside_dhaka]. *)
Theorem C4_delivery_policy (toLowerCase : jsstring -> jsstring)
  (Hlower : lowersBasicText toLowerCase) :
  (forall text : jsstring, text <> [] ->
     (exists area, In area Utils.dhakaAreas /\
                   occursIn (toLowerCase area) (toLowerCase text)) ->
     Utils.calculateDeliveryFee toLowerCase (Str text) = 80 /\
     CheckoutManager.getDeliveryArea toLowerCase (Str text)
     = u16 "inside_dhaka") /\
  (forall text : jsstring, text <> [] ->
     (forall area, In area Utils.dhakaAreas ->
                   ~ occursIn (toLowerCase area) (toLowerCase text)) ->
     Utils.calculateDeliveryFee toLowerCase (Str text) = 150 /\
     CheckoutManager.getDeliveryArea toLowerCase (Str text)
     = u16 "outside_dhaka") /\
  (Utils.calculateDeliveryFee toLowerCase (Str []) = 150 /\
   CheckoutManager.getDeliveryArea toLowerCase (Str []) = u16 "outside") /\
  (Utils.calculateDeliveryFee toLowerCase
     (Str (u16 "12 Road, Dhanmondi, Dhaka")) = 80 /\
   CheckoutManager.getDeliveryArea toLowerCase
     (Str (u16 "12 Road, Dhanmondi, Dhaka")) = u16 "inside_dhaka") /\
  (Utils.calculateDeliveryFee toLowerCase
     (Str (u16 "Village X, Rangpur")) = 150 /\
   CheckoutManager.getDeliveryArea toLowerCase
     (Str (u16 "Village X, Rangpur")) = u16 "outside_dhaka").
Proof.
  split; [exact (inside_text toLowerCase)|].
  split; [exact (outside_text toLowerCase)|].
  split; [split; reflexivity|].
  assert (Hscan : forall text : jsstring,
             text <> [] ->
             forallb isLatinOrBengali text = true ->
             Utils.calculateDeliveryFee toLowerCase (Str text)
             = Utils.calculateDeliveryFee toLowerCaseBasic (Str text) /\
             CheckoutManager.getDeliveryArea toLowerCase (Str text)
             = CheckoutManager.getDeliveryArea toLowerCaseBasic (Str text)).
  { intros [|c text] Hne Htext; [contradiction|].
    rewrite !fee_of_text, !area_of_text.
    rewrite (scan_basic toLowerCase (c :: text) Hlower Htext).
    split; reflexivity. }
  split.
  - destruct (Hscan (u16 "12 Road, Dhanmondi, Dhaka")) as [-> ->];
      [discriminate | reflexivity |].
    split; vm_compute; reflexivity.
  - destruct (Hscan (u16 "Village X, Rangpur")) as [-> ->];
      [discriminate | reflexivity |].
    split; vm_compute; reflexivity.
Qed.

(** The policy at the basic lowering: an address naming Mirpur in Bengali
    script is inside Dhaka. *)
Lemma C4_delivery_policy_witness :
  Utils.calculateDeliveryFee toLowerCaseBasic
    (Str (u16 "House 5, " ++ [2478; 2495; 2480; 2474; 2497; 2480]%N)) = 80
  /\ Utils.calculateDeliveryFee toLowerCaseBasic
       (Str (u16 "Village X, Rangpur")) = 150.
Proof.
  destruct (C4_delivery_policy toLowerCaseBasic
              ltac:(intros s _; reflexivity))
    as (Hin & _ & _ & _ & Hout).
  split.
  - apply Hin.
    + discriminate.
    + exists [2478; 2495; 2480; 2474; 2497; 2480]%N. split.
      * vm_compute. tauto.
      * exists (u16 "house 5, "), []. vm_compute. reflexivity.
  - apply Hout.
Defined.

(* ===================================================================== *)
(** ** Cart Manager: quantities *)
(* ===================================================================== *)

Lemma validIndex_test (c : list CartLine.t) (index : Z) :
  validIndex c index ->
  (0 <=? index) && (index <? Z.of_nat (length c)) = true.
Proof. unfold validIndex. intros H. apply andb_true_iff. lia. Qed.

Lemma invalidIndex_test (c : list CartLine.t) (index : Z) :
  ~ validIndex c index ->
  (0 <=? index) && (index <? Z.of_nat (length c)) = false.
Proof. unfold validIndex. intros H. apply andb_false_iff. lia. Qed.

Lemma validIndex_lookup (c : list CartLine.t) (index : Z) :
  validIndex c index -> exists line, c !! Z.to_nat index = Some line.
Proof.
  unfold validIndex. intros H.
  destruct (lookup_lt_is_Some_2 c (Z.to_nat index)) as [line Hl];
    [lia | eauto].
Qed.

Lemma updateQuantity_cart (w : World) (index quantity : Z) :
  validIndex (cart w) index -> 0 < quantity ->
  cartAfter (updateQuantity index quantity) w
  = alter (CartLine.setQuantity quantity) (Z.to_nat index) (cart w).
Proof.
  intros Hi Hq. run_cart. rewrite (validIndex_test _ _ Hi).
  replace (0 <? quantity) with true by (symmetry; apply Z.ltb_lt; lia).
  simpl. destruct (storageWritable w); reflexivity.
Qed.

Lemma updateQuantity_ignored (w : World) (index quantity : Z) :
  quantity <= 0 \/ ~ validIndex (cart w) index ->
  updateQuantity index quantity w = (Returned tt, w).
Proof.
  intros H. run_cart.
  replace ((0 <=? index) && (index <? Z.of_nat (length (cart w)))
           && (0 <? quantity)) with false; [reflexivity|].
  symmetry. apply andb_false_iff. destruct H as [H|H].
  - right. apply Z.ltb_ge. lia.
  - left. apply invalidIndex_test. exact H.
Qed.

(** C7. [updateQuantity] on a valid index with a positive quantity stores
    that quantity in the addressed line; with a quantity of 0 or less, or
    an index outside the cart, it returns without touching anything; no
    upper bound is applied, so 50 on a valid index is stored as 50. *)
Theorem C7_updateQuantity_guard (w : World) (index quantity : Z) :
  (validIndex (cart w) index -> 0 < quantity ->
   exists line,
     cart w !! Z.to_nat index = Some line /\
     cartAfter (updateQuantity index quantity) w !! Z.to_nat index
     = Some (CartLine.setQuantity quantity line) /\
     CartLine.quantity (CartLine.setQuantity quantity line) = quantity) /\
  (quantity <= 0 \/ index < 0 \/ Z.of_nat (length (cart w)) <= index ->
   updateQuantity index quantity w = (Returned tt, w)) /\
  (validIndex (cart w) index ->
   CartLine.quantity
     <$> cartAfter (updateQuantity index 50) w !! Z.to_nat index
   = Some 50).
Proof.
  split; [|split].
  - intros Hi Hq. destruct (validIndex_lookup _ _ Hi) as [line Hl].
    exists line. split; [exact Hl|]. split; [|reflexivity].
    rewrite updateQuantity_cart by assumption.
    rewrite list_lookup_alter_eq, Hl. reflexivity.
  - intros H. apply updateQuantity_ignored.
    unfold validIndex. destruct H as [H|H]; [left; exact H | right; lia].
  - intros Hi. destruct (validIndex_lookup _ _ Hi) as [line Hl].
    rewrite updateQuantity_cart by (assumption || lia).
    rewrite list_lookup_alter_eq, Hl. reflexivity.
Qed.

(** A cart of one line with quantity 2; setting it to 50 stores 50. *)
Lemma C7_updateQuantity_guard_witness :
  CartLine.quantity
    <$> cartAfter (updateQuantity 0 50) (worldWith [lineOf 2]) !! O
  = Some 50.
Proof.
  destruct (C7_updateQuantity_guard (worldWith [lineOf 2]) 0 50)
    as (_ & _ & H).
  apply H. unfold validIndex. simpl. lia.
Defined.

(** C9. On a valid index with a positive quantity, [updateQuantity]
    leaves the number of lines, every other line and the order as they
    were, and in the addressed line changes nothing but the quantity:
    id, name, price, image, color, size and addedAt are kept. *)
Theorem C9_updateQuantity_frame (w : World) (index quantity : Z) :
  validIndex (cart w) index -> 0 < quantity ->
  length (cartAfter (updateQuantity index quantity) w) = length (cart w) /\
  (forall j : nat,
     j <> Z.to_nat index ->
     cartAfter (updateQuantity index quantity) w !! j = cart w !! j) /\
  (exists before line,
     cart w !! Z.to_nat index = Some before /\
     cartAfter (updateQuantity index quantity) w !! Z.to_nat index
     = Some line /\
     CartLine.id line = CartLine.id before /\
     CartLine.name line = CartLine.name before /\
     CartLine.price line = CartLine.price before /\
     CartLine.image line = CartLine.image before /\
     CartLine.color line = CartLine.color before /\
     CartLine.size line = CartLine.size before /\
     CartLine.addedAt line = CartLine.addedAt before).
Proof.
  intros Hi Hq. rewrite updateQuantity_cart by assumption.
  split; [apply length_alter|]. split.
  - intros j Hj. apply list_lookup_alter_ne. congruence.
  - destruct (validIndex_lookup _ _ Hi) as [before Hl].
    exists before, (CartLine.setQuantity quantity before).
    rewrite list_lookup_alter_eq, Hl. simpl. repeat split; reflexivity.
Qed.

(** In a cart of two lines, setting the quantity of the second keeps the
    first as it was. *)
Lemma C9_updateQuantity_frame_witness :
  cartAfter (updateQuantity 1 7) (worldWith [lineOf 2; lineOf 3]) !! O
  = Some (lineOf 2).
Proof.
  destruct (C9_updateQuantity_frame (worldWith [lineOf 2; lineOf 3]) 1 7)
    as (_ & H & _).
  - unfold validIndex. simpl. lia.
  - lia.
  - apply (H O). simpl. lia.
Defined.

(* ===================================================================== *)
(** ** Data Manager: which records reach the catalog *)
(* ===================================================================== *)

Lemma keepProduct_conditions (p : Product.t) :
  DataManager.keepProduct p = true
  <-> nonEmpty (Product.id p) /\ nonEmpty (Product.name p)
      /\ 0 < Product.price p.
Proof.
  unfold DataManager.keepProduct.
  rewrite !andb_true_iff, !truthy_nonEmpty, Z.ltb_lt. tauto.
Qed.

Lemma numOr_zero (n : option Z) :
  numOr n 0 = match n with Some k => k | None => 0 end.
Proof. destruct n as [[| |]|]; reflexivity. Qed.

Lemma processProducts_In
  (parseInt : jsval -> option Z) (randomIndex : nat -> nat)
  (products : list RawProduct.t) (p : Product.t) :
  In p (DataManager.processProducts parseInt randomIndex products)
  <-> (exists k raw,
         products !! k = Some raw /\
         p = DataManager.mapProduct parseInt randomIndex k raw) /\
      DataManager.keepProduct p = true.
Proof.
  unfold DataManager.processProducts.
  rewrite filter_In, <- list_elem_of_In, elem_of_lookup_imap.
  split; intros ((k & raw & H1 & H2) & Hkeep); (split; [|exact Hkeep]);
    exists k, raw; auto.
Qed.

(** C6. A product is in the output of [processProducts] exactly when it
    is the mapping of some input record and has a non-empty id, a
    non-empty name and a price above 0; so the mapping of the k-th record
    is in the output exactly when it meets those three conditions.  The
    price is the integer parsed from the raw price field, or 0 when
    nothing parses. *)
Theorem C6_processProducts_keeps_valid
  (parseInt : jsval -> option Z) (randomIndex : nat -> nat)
  (products : list RawProduct.t) :
  (forall p : Product.t,
     In p (DataManager.processProducts parseInt randomIndex products)
     <-> exists k raw,
           products !! k = Some raw /\
           p = DataManager.mapProduct parseInt randomIndex k raw /\
           nonEmpty (Product.id p) /\
           nonEmpty (Product.name p) /\
           0 < Product.price p) /\
  (forall k raw,
     products !! k = Some raw ->
     (In (DataManager.mapProduct parseInt randomIndex k raw)
         (DataManager.processProducts parseInt randomIndex products)
      <-> nonEmpty (RawProduct.ProductID raw) /\
          nonEmpty (RawProduct.Name raw) /\
          0 < match parseInt (RawProduct.PriceBDT raw) with
              | Some n => n
              | None => 0
              end)) /\
  (forall k raw,
     Product.price (DataManager.mapProduct parseInt randomIndex k raw)
     = match parseInt (RawProduct.PriceBDT raw) with
       | Some n => n
       | None => 0
       end).
Proof.
  split; [|split].
  - intros p. rewrite processProducts_In, keepProduct_conditions. split.
    + intros ((k & raw & Hk & ->) & Hid & Hname & Hprice).
      exists k, raw. auto.
    + intros (k & raw & Hk & -> & Hid & Hname & Hprice).
      split; [exists k, raw|]; auto.
  - intros k raw Hk.
    rewrite processProducts_In, keepProduct_conditions. simpl.
    rewrite numOr_zero. split.
    + intros (_ & H). exact H.
    + intros H. split; [exists k, raw; auto | exact H].
  - intros k raw. simpl. apply numOr_zero.
Qed.

(** Of two records, the one without a name is left out and the other is
    kept. *)
Lemma C6_processProducts_keeps_valid_witness :
  In (DataManager.mapProduct parseIntDecimal (fun _ => O) 1
                            DataManager.rawBib)
     (DataManager.processProducts parseIntDecimal (fun _ => O)
        [DataManager.rawNameless; DataManager.rawBib]).
Proof.
  destruct (C6_processProducts_keeps_valid parseIntDecimal (fun _ => O)
              [DataManager.rawNameless; DataManager.rawBib]) as (_ & H & _).
  apply (H 1%nat DataManager.rawBib); [reflexivity|].
  unfold nonEmpty. simpl. repeat split.
  - exists (u16 "P5"). split; [reflexivity | discriminate].
  - exists (u16 "Bib"). split; [reflexivity | discriminate].
Defined.

Example processProducts_sample :
  List.map Product.price
    (DataManager.processProducts parseIntDecimal (fun _ => O)
       [ RawProduct.mk (Str (u16 "P1")) (Str (u16 "Romper")) Null
           (Str (u16 "500")) Null Null Null Null Null Null Null Null Null
           Null Null Null;
         RawProduct.mk (Str (u16 "P2")) (Str (u16 "Cap")) Null
           (Str (u16 "free")) Null Null Null Null Null Null Null Null Null
           Null Null Null;
         RawProduct.mk (Str []) (Str (u16 "Sock")) Null
           (Str (u16 "90")) Null Null Null Null Null Null Null Null Null
           Null Null Null;
         RawProduct.mk (Str (u16 "P4")) Undefined Null
           (Str (u16 "90")) Null Null Null Null Null Null Null Null Null
           Null Null Null;
         RawProduct.mk (Str (u16 "P5")) (Str (u16 "Bib")) Null
           (Str (u16 "120")) Null Null Null Null Null Null Null Null Null
           Null Null Null ])
  = [500; 120].
Proof. vm_compute. reflexivity. Qed.

(* ===================================================================== *)
(** ** Cart Manager: the quantity range *)
(* ===================================================================== *)

Lemma removeFromCart_cart (w : World) (index : Z) :
  cartAfter (removeFromCart index) w
  = if (0 <=? index) && (index <? Z.of_nat (length (cart w)))
    then delete (Z.to_nat index) (cart w) else cart w.
Proof.
  run_cart. destruct ((0 <=? index) && _); [|reflexivity].
  simpl. destruct (storageWritable w); reflexivity.
Qed.

Lemma clearCart_cart (w : World) : cartAfter clearCart w = [].
Proof. run_cart. destruct (storageWritable w); reflexivity. Qed.

Lemma cartAt_valid (c : list CartLine.t) (index : Z) (item : CartLine.t) :
  cartAt c index = Some item ->
  validIndex c index /\ c !! Z.to_nat index = Some item.
Proof.
  unfold cartAt, validIndex. destruct (index <? 0) eqn:E; [discriminate|].
  intros H. split; [|exact H].
  apply Z.ltb_ge in E. apply lookup_lt_Some in H. lia.
Qed.

Lemma range_delete (c : list CartLine.t) (i : nat) :
  quantitiesInRange c -> quantitiesInRange (delete i c).
Proof.
  unfold quantitiesInRange. apply Forall_delete.
Qed.

Lemma range_alter (c : list CartLine.t) (i : nat) (q : Z) :
  1 <= q <= 10 -> quantitiesInRange c ->
  quantitiesInRange (alter (CartLine.setQuantity q) i c).
Proof.
  unfold quantitiesInRange. intros Hq H.
  apply Forall_alter; [exact H|]. intros line _ _. exact Hq.
Qed.

(** Removing a line keeps every quantity from 1 to 10. *)
Lemma removeFromCart_keeps_range (w : World) (index : Z) :
  quantitiesInRange (cart w) ->
  quantitiesInRange (cartAfter (removeFromCart index) w).
Proof.
  intros H. rewrite removeFromCart_cart.
  destruct (_ && _); [apply range_delete|]; exact H.
Qed.

(** The cleared cart has no line out of range. *)
Lemma clearCart_keeps_range (w : World) :
  quantitiesInRange (cartAfter clearCart w).
Proof. rewrite clearCart_cart. constructor. Qed.

(** The increment button keeps every quantity from 1 to 10. *)
Lemma increaseQuantity_keeps_range (w : World) (index : Z) :
  quantitiesInRange (cart w) ->
  quantitiesInRange (cartAfter (increaseQuantity index) w).
Proof.
  intros H. unfold cartAfter, increaseQuantity.
  unfold mbind at 1, M_bind, bind at 1, getCart at 1.
  destruct (cartAt (cart w) index) as [item|] eqn:E; [|exact H].
  destruct (cartAt_valid _ _ _ E) as [Hi Hl].
  assert (Hitem : 1 <= CartLine.quantity item <= 10).
  { unfold quantitiesInRange in H. rewrite Forall_lookup in H.
    exact (H _ _ Hl). }
  destruct (CartLine.quantity item <? 10) eqn:Eq.
  - apply Z.ltb_lt in Eq.
    change (quantitiesInRange
              (cartAfter (updateQuantity index (CartLine.quantity item + 1))
                         w)).
    rewrite updateQuantity_cart by (assumption || lia).
    apply range_alter; [lia | exact H].
  - exact H.
Qed.

(** The decrement button keeps every quantity from 1 to 10: a line at
    quantity 1 is deleted, not set to 0. *)
Lemma decreaseQuantity_keeps_range (w : World) (index : Z) :
  quantitiesInRange (cart w) ->
  quantitiesInRange (cartAfter (decreaseQuantity index) w).
Proof.
  intros H. unfold cartAfter, decreaseQuantity.
  unfold mbind at 1, M_bind, bind at 1, getCart at 1.
  destruct (cartAt (cart w) index) as [item|] eqn:E; [|exact H].
  destruct (cartAt_valid _ _ _ E) as [Hi Hl].
  assert (Hitem : 1 <= CartLine.quantity item <= 10).
  { unfold quantitiesInRange in H. rewrite Forall_lookup in H.
    exact (H _ _ Hl). }
  destruct (1 <? CartLine.quantity item) eqn:Eq.
  - apply Z.ltb_lt in Eq.
    change (quantitiesInRange
              (cartAfter (updateQuantity index (CartLine.quantity item - 1))
                         w)).
    rewrite updateQuantity_cart by (assumption || lia).
    apply range_alter; [lia | exact H].
  - apply (removeFromCart_keeps_range w index H).
Qed.

Lemma decreaseQuantity_at_one (w : World) (index : Z) (item : CartLine.t) :
  cartAt (cart w) index = Some item -> CartLine.quantity item = 1 ->
  cartAfter (decreaseQuantity index) w = delete (Z.to_nat index) (cart w).
Proof.
  intros E Hq. destruct (cartAt_valid _ _ _ E) as [Hi _].
  unfold cartAfter, decreaseQuantity.
  unfold mbind at 1, M_bind, bind at 1, getCart at 1.
  rewrite E, Hq. simpl.
  change (cartAfter (removeFromCart index) w
          = delete (Z.to_nat index) (cart w)).
  rewrite removeFromCart_cart, (validIndex_test _ _ Hi). reflexivity.
Qed.

(** C1. The range 1..10 is not kept by every operation: adding one more
    of a product whose line already stands at 10 leaves that line at 11,
    and [updateQuantity] stores 50.  Both start from carts within the
    range. *)
Theorem C1_quantity_range_exceeded :
  quantitiesInRange [lineOf 10] /\
  cartAfter (addToCart (u16 "2024-01-02T00:00:00.000Z")
                       (Some (pageItem 1)))
            (worldWith [lineOf 10])
  = [lineOf 11] /\
  ~ quantitiesInRange [lineOf 11] /\
  quantitiesInRange [lineOf 2] /\
  cartAfter (updateQuantity 0 50) (worldWith [lineOf 2]) = [lineOf 50] /\
  ~ quantitiesInRange [lineOf 50].
Proof.
  unfold quantitiesInRange.
  repeat split; try (vm_compute; reflexivity);
    try (repeat constructor; simpl; lia);
    intros H; inversion H as [|? ? Hq _]; simpl in Hq; lia.
Qed.

(** A typed-in quantity of -5 reaches the cart as it is. *)
Example addToCart_negative_quantity :
  cartAfter (addToCart (u16 "2024-01-01T00:00:00.000Z")
                       (Some (pageItem (-5))))
            (worldWith [])
  = [lineOf (-5)].
Proof. vm_compute. reflexivity. Qed.

(* ===================================================================== *)
(** ** Cart Manager: adding an item *)
(* ===================================================================== *)

Lemma addToCart_found (w : World) (now : jsstring) (item : Item.t)
  (i : nat) :
  truthy (Item.id item) = true ->
  findIndex (sameVariant item) (cart w) = Some i ->
  cartAfter (addToCart now (Some item)) w
  = alter (fun existingItem =>
             CartLine.setQuantity
               (CartLine.quantity existingItem
                + numOr (Item.quantity item) 1) existingItem)
          i (cart w).
Proof.
  intros Hid Hfind. run_cart. rewrite Hid. cbn [negb]. rewrite Hfind.
  simpl. destruct (storageWritable w); reflexivity.
Qed.

Lemma addToCart_not_found (w : World) (now : jsstring) (item : Item.t) :
  truthy (Item.id item) = true ->
  findIndex (sameVariant item) (cart w) = None ->
  cartAfter (addToCart now (Some item)) w = cart w ++ [newLine now item].
Proof.
  intros Hid Hfind. run_cart. rewrite Hid. cbn [negb]. rewrite Hfind.
  simpl. destruct (storageWritable w); reflexivity.
Qed.

Lemma findIndex_Some {A : Type} (p : A -> bool) (l : list A) (i : nat) :
  findIndex p l = Some i ->
  exists x, l !! i = Some x /\ p x = true.
Proof.
  revert i. induction l as [|a l IH]; intros i; simpl; [discriminate|].
  destruct (p a) eqn:E.
  - intros [= <-]. exists a. auto.
  - destruct (findIndex p l) as [j|]; simpl; [|discriminate].
    intros [= <-]. apply (IH j eq_refl).
Qed.

Lemma findIndex_None {A : Type} (p : A -> bool) (l : list A) :
  findIndex p l = None <-> forall x, In x l -> p x = false.
Proof.
  induction l as [|a l IH]; simpl.
  - split; [intros _ x [] | reflexivity].
  - destruct (p a) eqn:E.
    + split; [discriminate|]. intros H.
      rewrite (H a (or_introl eq_refl)) in E. discriminate.
    + destruct (findIndex p l) as [j|]; simpl.
      * split; [discriminate|]. intros H.
        assert (Hn : @None nat = None) by reflexivity.
        destruct IH as [_ IH].
        discriminate IH. intros x Hx. apply H. right. exact Hx.
      * split; [|reflexivity]. intros _ x [<-|Hx]; [exact E|].
        destruct IH as [IH _]. apply (IH eq_refl x Hx).
Qed.

(** A stored line never carries [undefined] or the empty string as its
    color, so an item whose color is missing or empty matches no line
    that [addToCart] stored; the same holds for size. *)
Lemma stored_line_misses_absent_variant (now : jsstring)
  (stored item : Item.t) :
  truthy (Item.color item) = false /\ Item.color item <> Null
  \/ truthy (Item.size item) = false /\ Item.size item <> Null ->
  sameVariant item (newLine now stored) = false.
Proof.
  unfold sameVariant, newLine, orElse. simpl.
  intros [[Hf Hn]|[Hf Hn]].
  - destruct (Item.color item) as [| |[|c s]]; try discriminate;
      try contradiction;
      destruct (truthy (Item.color stored)) eqn:E;
      destruct (Item.color stored) as [| |[|d t]]; try discriminate;
      simpl; rewrite ?andb_false_r; reflexivity.
  - destruct (Item.size item) as [| |[|c s]]; try discriminate;
      try contradiction;
      destruct (truthy (Item.size stored)) eqn:E;
      destruct (Item.size stored) as [| |[|d t]]; try discriminate;
      simpl; rewrite ?andb_false_r; reflexivity.
Qed.

(** C3. Adding the product-card item for "P1" twice to an empty cart
    leaves two lines of quantity 1 for the same product, color and size,
    where one line of quantity 2 is expected; the product-page item,
    whose color and size are [null], is merged into one line of
    quantity 2. *)
Theorem C3_addToCart_same_item_twice :
  cartAfter (addToCart (u16 "2024-01-01T00:00:00.000Z") (Some cardItem) ;;
             addToCart (u16 "2024-01-01T00:00:05.000Z") (Some cardItem))
            (worldWith [])
  = [cardLine (u16 "2024-01-01T00:00:00.000Z");
     cardLine (u16 "2024-01-01T00:00:05.000Z")] /\
  cartAfter (addToCart (u16 "2024-01-01T00:00:00.000Z")
                       (Some (pageItem 1)) ;;
             addToCart (u16 "2024-01-01T00:00:05.000Z")
                       (Some (pageItem 1)))
            (worldWith [])
  = [lineOf 2].
Proof. split; vm_compute; reflexivity. Qed.

(* ===================================================================== *)
(** ** Cart Manager: reconciliation with the catalog *)
(* ===================================================================== *)

Lemma refreshedLines_cons (catalog : list Product.t) (item : CartLine.t)
  (c : list CartLine.t) :
  refreshedLines catalog (item :: c)
  = match DataManager.getProductById catalog (CartLine.id item) with
    | Some product =>
        CartLine.refresh (Product.name product) (Product.price product)
                         (Product.mainImage product) item
        :: refreshedLines catalog c
    | None => refreshedLines catalog c
    end.
Proof.
  unfold refreshedLines. cbn [omap list_omap].
  destruct (DataManager.getProductById _ _); reflexivity.
Qed.

Lemma anyMissing_cons (catalog : list Product.t) (item : CartLine.t)
  (c : list CartLine.t) :
  anyMissing catalog (item :: c)
  = match DataManager.getProductById catalog (CartLine.id item) with
    | Some _ => anyMissing catalog c
    | None => true
    end.
Proof.
  unfold anyMissing. cbn [existsb].
  destruct (DataManager.getProductById _ _); reflexivity.
Qed.

Lemma validate_loop (catalog : list Product.t) (c acc : list CartLine.t)
  (flag : bool) :
  fold_left (validateStep catalog) c (acc, flag)
  = (acc ++ refreshedLines catalog c, flag || anyMissing catalog c).
Proof.
  revert acc flag. induction c as [|item c IH]; intros acc flag.
  - simpl. rewrite app_nil_r, orb_false_r. reflexivity.
  - cbn [fold_left]. rewrite refreshedLines_cons, anyMissing_cons.
    unfold validateStep at 2.
    destruct (DataManager.getProductById catalog (CartLine.id item)).
    + rewrite IH, <- app_assoc. reflexivity.
    + rewrite IH, !orb_true_r. simpl.
      destruct (anyMissing catalog c); reflexivity.
Qed.

(** When every line has its product in the catalog, reconciliation
    changes nothing: the refreshed lines are built and dropped. *)
Lemma validateCartItems_all_found (w : World) :
  anyMissing (products w) (cart w) = false ->
  validateCartItems w = (Returned tt, w).
Proof.
  intros H. run_cart.
  destruct (DataManager.isProductsLoaded (products w)); [|reflexivity].
  simpl. rewrite validate_loop, H. reflexivity.
Qed.

(** When some line has no product, the cart becomes the refreshed lines
    and is saved; nothing else is recorded. *)
Lemma validateCartItems_missing (w : World) :
  DataManager.isProductsLoaded (products w) = true ->
  anyMissing (products w) (cart w) = true ->
  cartAfter validateCartItems w = refreshedLines (products w) (cart w) /\
  effectsOf validateCartItems w
  = [ if storageWritable w
      then SetItem storageKey (refreshedLines (products w) (cart w))
      else ConsoleError (u16 "Error saving cart:");
      UpdateCartDisplay ].
Proof.
  intros Hl H. run_cart. rewrite Hl. simpl.
  rewrite validate_loop, H. simpl.
  destruct (storageWritable w); simpl; rewrite Nat.eqb_refl; simpl;
    (split; [reflexivity|]);
    rewrite <- app_assoc; apply drop_app_length.
Qed.

(** Reconciliation never shows a notification. *)
Lemma validateCartItems_never_notifies (w : World)
  (message kind : jsstring) :
  ~ In (ShowNotification message kind) (effectsOf validateCartItems w).
Proof.
  destruct (DataManager.isProductsLoaded (products w)) eqn:Hl.
  - destruct (anyMissing (products w) (cart w)) eqn:H.
    + destruct (validateCartItems_missing w Hl H) as [_ ->].
      destruct (storageWritable w); simpl; intuition discriminate.
    + unfold effectsOf. rewrite (validateCartItems_all_found w H).
      simpl. rewrite drop_all. intros [].
  - unfold effectsOf. run_cart. rewrite Hl. simpl.
    rewrite drop_all. intros [].
Qed.

(** C2. Reconciliation against a loaded catalog in which "P1" has a new
    name, price and image: a cart whose only line is "P1" keeps the old
    name, price and image and nothing is saved, where the catalog values
    are expected; and when a second line has no product, that line is
    dropped, the first is refreshed and the cart is saved, but no
    notification is shown. *)
Theorem C2_validateCartItems_stale_and_silent :
  validateCartItems (worldOf [lineOf 2] [currentP1])
  = (Returned tt, worldOf [lineOf 2] [currentP1]) /\
  CartLine.price <$> cart (worldOf [lineOf 2] [currentP1]) !! O
  = Some 500 /\
  Product.price currentP1 = 650 /\
  cartAfter validateCartItems (worldOf [lineOf 2; staleLine] [currentP1])
  = [CartLine.refresh (Str (u16 "Romper v2")) 650
                      (Str (u16 "romper2.jpg")) (lineOf 2)] /\
  effectsOf validateCartItems (worldOf [lineOf 2; staleLine] [currentP1])
  = [SetItem storageKey
       [CartLine.refresh (Str (u16 "Romper v2")) 650
                         (Str (u16 "romper2.jpg")) (lineOf 2)];
     UpdateCartDisplay].
Proof. repeat split; vm_compute; reflexivity. Qed.

(* ===================================================================== *)
(** ** The regular-expression matcher and the languages it decides *)
(* ===================================================================== *)

Section Matcher.
Import RegExp.

Lemma matches_Never_inv (s : jsstring) : ~ matches Never s.
Proof. intros H. inversion H. Qed.

Lemma matches_Empty_inv (s : jsstring) : matches Empty s <-> s = [].
Proof. split; [inversion 1; reflexivity | intros ->; constructor]. Qed.

Lemma matches_Class_inv (p : N -> bool) (s : jsstring) :
  matches (CharClass p) s <-> exists c, s = [c] /\ p c = true.
Proof.
  split.
  - inversion 1; subst. eauto.
  - intros (c & -> & H). constructor. exact H.
Qed.

Lemma matches_Seq_inv (a b : regex) (s : jsstring) :
  matches (Seq a b) s
  <-> exists s1 s2, s = s1 ++ s2 /\ matches a s1 /\ matches b s2.
Proof.
  split.
  - inversion 1; subst. eauto.
  - intros (s1 & s2 & -> & H1 & H2). constructor; assumption.
Qed.

Lemma matches_Alt_inv (a b : regex) (s : jsstring) :
  matches (Alt a b) s <-> matches a s \/ matches b s.
Proof.
  split.
  - inversion 1; subst; auto.
  - intros [H|H]; [apply MAltL | apply MAltR]; exact H.
Qed.

Lemma nullable_matches (r : regex) : nullable r = true <-> matches r [].
Proof.
  induction r as [| |p|a IHa b IHb|a IHa b IHb|a IHa]; simpl.
  - split; [discriminate | intros H; inversion H].
  - split; [constructor | reflexivity].
  - split; [discriminate | intros H; inversion H].
  - rewrite andb_true_iff, IHa, IHb, matches_Seq_inv. split.
    + intros [Ha Hb]. exists [], []. auto.
    + intros (s1 & s2 & Hs & Ha & Hb). symmetry in Hs.
      apply List.app_eq_nil in Hs. destruct Hs as [-> ->]. auto.
  - rewrite orb_true_iff, IHa, IHb, matches_Alt_inv. reflexivity.
  - split; [constructor | reflexivity].
Qed.

Lemma matches_Star_cons (a : regex) (c : N) (s : jsstring) :
  matches (Star a) (c :: s) ->
  exists s1 s2, s = s1 ++ s2 /\ matches a (c :: s1) /\ matches (Star a) s2.
Proof.
  intros H. remember (Star a) as r eqn:Er. remember (c :: s) as u eqn:Eu.
  revert Er Eu.
  induction H as [| | | | | |a' s1 t H1 _ H2 IH2]; try discriminate.
  intros [= ->] Eu. destruct s1 as [|d s1]; simpl in Eu.
  - apply IH2; [reflexivity | exact Eu].
  - injection Eu as -> <-. exists s1, t. auto.
Qed.

Lemma deriv_matches (r : regex) (c : N) (s : jsstring) :
  matches (deriv c r) s <-> matches r (c :: s).
Proof.
  revert s. induction r as [| |p|a IHa b IHb|a IHa b IHb|a IHa];
    intros s; simpl.
  - split; intros H; inversion H.
  - split; intros H; inversion H.
  - rewrite matches_Class_inv. destruct (p c) eqn:E.
    + rewrite matches_Empty_inv. split.
      * intros ->. eauto.
      * intros (d & [= -> ->] & _). reflexivity.
    + split; [intros H; inversion H|].
      intros (d & [= -> ->] & H). congruence.
  - assert (Hseq : matches (Seq (deriv c a) b) s
                   <-> exists s1 s2, s = s1 ++ s2 /\ matches a (c :: s1)
                                     /\ matches b s2).
    { rewrite matches_Seq_inv. split;
        intros (s1 & s2 & Hs & H1 & H2); exists s1, s2;
        (split; [exact Hs|]); (split; [|exact H2]); apply IHa; exact H1. }
    rewrite (matches_Seq_inv a b (c :: s)).
    destruct (nullable a) eqn:En.
    + rewrite matches_Alt_inv, Hseq, IHb. split.
      * intros [(s1 & s2 & -> & H1 & H2)|H].
        -- exists (c :: s1), s2. auto.
        -- exists [], (c :: s). split; [reflexivity|].
           split; [apply nullable_matches; exact En | exact H].
      * intros (s1 & s2 & Hs & H1 & H2). destruct s1 as [|d s1].
        -- right. simpl in Hs. rewrite Hs. exact H2.
        -- left. injection Hs as <- ->. eauto.
    + rewrite Hseq. split.
      * intros (s1 & s2 & -> & H1 & H2). exists (c :: s1), s2. auto.
      * intros (s1 & s2 & Hs & H1 & H2). destruct s1 as [|d s1].
        -- apply nullable_matches in H1. congruence.
        -- injection Hs as <- ->. eauto.
  - rewrite !matches_Alt_inv, IHa, IHb. reflexivity.
  - rewrite matches_Seq_inv. split.
    + intros (s1 & s2 & -> & H1 & H2). apply IHa in H1.
      apply (MStarCons a (c :: s1) s2 H1 H2).
    + intros H. apply matches_Star_cons in H.
      destruct H as (s1 & s2 & -> & H1 & H2).
      exists s1, s2. split; [reflexivity|]. split; [|exact H2].
      apply IHa. exact H1.
Qed.

(** The matcher decides the language of the expression. *)
Lemma test_matches (r : regex) (s : jsstring) :
  test r s = true <-> matches r s.
Proof.
  unfold test. revert r. induction s as [|c s IH]; intros r; simpl.
  - apply nullable_matches.
  - rewrite IH. apply deriv_matches.
Qed.

Lemma matches_Lit (t s : jsstring) : matches (Lit t) s <-> s = t.
Proof.
  revert s. induction t as [|c t IH]; intros s; simpl.
  - apply matches_Empty_inv.
  - rewrite matches_Seq_inv. unfold Chr. split.
    + intros (s1 & s2 & -> & H1 & H2).
      apply matches_Class_inv in H1. destruct H1 as (d & -> & Hd).
      apply N.eqb_eq in Hd. apply IH in H2. subst. reflexivity.
    + intros ->. exists [c], t. split; [reflexivity|]. split.
      * constructor. apply N.eqb_refl.
      * apply IH. reflexivity.
Qed.

Lemma matches_Rep_class (p : N -> bool) (n : nat) (s : jsstring) :
  matches (Rep n (CharClass p)) s
  <-> length s = n /\ forallb p s = true.
Proof.
  revert s. induction n as [|n IH]; intros s; simpl.
  - rewrite matches_Empty_inv. split.
    + intros ->. auto.
    + intros [H _]. destruct s; [reflexivity | discriminate].
  - rewrite matches_Seq_inv. split.
    + intros (s1 & s2 & -> & H1 & H2).
      apply matches_Class_inv in H1. destruct H1 as (d & -> & Hd).
      apply IH in H2. destruct H2 as [<- H2]. simpl.
      rewrite Hd, H2. auto.
    + intros [Hl Hp]. destruct s as [|c s]; [discriminate|].
      simpl in Hl, Hp. apply andb_true_iff in Hp. destruct Hp as [Hc Hp].
      exists [c], s. split; [reflexivity|]. split.
      * constructor. exact Hc.
      * apply IH. split; [congruence | exact Hp].
Qed.

Lemma matches_Star_class (p : N -> bool) (s : jsstring) :
  matches (Star (CharClass p)) s <-> forallb p s = true.
Proof.
  split.
  - intros H. remember (Star (CharClass p)) as r eqn:Er. revert Er.
    induction H as [| | | | | |a s1 t H1 _ H2 IH2]; try discriminate.
    + reflexivity.
    + intros [= ->]. apply matches_Class_inv in H1.
      destruct H1 as (c & -> & Hc). simpl. rewrite Hc. simpl.
      apply IH2. reflexivity.
  - induction s as [|c s IH]; simpl.
    + intros _. constructor.
    + intros H. apply andb_true_iff in H. destruct H as [Hc Hs].
      apply (MStarCons (CharClass p) [c] s).
      * constructor. exact Hc.
      * apply IH. exact Hs.
Qed.

Lemma matches_Plus_class (p : N -> bool) (s : jsstring) :
  matches (Plus (CharClass p)) s <-> s <> [] /\ forallb p s = true.
Proof.
  unfold Plus. rewrite matches_Seq_inv. split.
  - intros (s1 & s2 & -> & H1 & H2).
    apply matches_Class_inv in H1. destruct H1 as (c & -> & Hc).
    apply matches_Star_class in H2. simpl. rewrite Hc, H2.
    split; [discriminate | reflexivity].
  - intros [Hne Hp]. destruct s as [|c s]; [contradiction|].
    simpl in Hp. apply andb_true_iff in Hp. destruct Hp as [Hc Hs].
    exists [c], s. split; [reflexivity|]. split.
    + constructor. exact Hc.
    + apply matches_Star_class. exact Hs.
Qed.

End Matcher.

(* ===================================================================== *)
(** ** What the phone and email validators accept *)
(* ===================================================================== *)

Lemma digit_not_whitespace (c : N) :
  isDigit c = true -> isWhiteSpace c = false.
Proof.
  unfold isDigit, isWhiteSpace. intros H.
  apply andb_true_iff in H. destruct H as [H1 H2].
  apply N.leb_le in H1. apply N.leb_le in H2.
  repeat match goal with
         | |- context [(c =? ?k)%N] =>
             replace (c =? k)%N with false
               by (symmetry; apply N.eqb_neq; lia)
         end.
  replace (8192 <=? c)%N with false by (symmetry; apply N.leb_gt; lia).
  reflexivity.
Qed.

Lemma digits_without_whitespace (s : jsstring) :
  forallb isDigit s = true -> withoutWhiteSpace s = s.
Proof.
  unfold withoutWhiteSpace. induction s as [|c s IH]; simpl.
  - reflexivity.
  - intros H. apply andb_true_iff in H. destruct H as [Hc Hs].
    rewrite (digit_not_whitespace c Hc). simpl. rewrite IH by exact Hs.
    reflexivity.
Qed.

Lemma validatePhone_language (s : jsstring) :
  Utils.validatePhone s = true
  <-> exists prefix digits,
        withoutWhiteSpace s = prefix ++ digits /\
        (prefix = [] \/ prefix = u16 "+88" \/ prefix = u16 "01") /\
        forallb isDigit digits = true /\
        (length digits = 11%nat \/ length digits = 13%nat).
Proof.
  unfold Utils.validatePhone, Utils.phoneRegex, RegExp.Opt, RegExp.digit.
  fold isDigit.
  rewrite test_matches, replaceWhiteSpaceRuns_filter, matches_Seq_inv.
  split.
  - intros (s1 & s2 & Hs & H1 & H2). exists s1, s2.
    split; [exact Hs|]. split.
    + rewrite !matches_Alt_inv, !matches_Lit, matches_Empty_inv in H1.
      tauto.
    + rewrite matches_Alt_inv, !matches_Rep_class in H2.
      destruct H2 as [[Hl Hp]|[Hl Hp]]; auto.
  - intros (s1 & s2 & Hs & H1 & Hp & Hl). exists s1, s2.
    split; [exact Hs|]. split.
    + rewrite !matches_Alt_inv, !matches_Lit, matches_Empty_inv. tauto.
    + rewrite matches_Alt_inv, !matches_Rep_class.
      destruct Hl as [Hl|Hl]; [left | right]; auto.
Qed.

(** After white space is removed, [validatePhone] accepts exactly an
    optional "+88" or "01" followed by 11 or 13 decimal digits. *)
Theorem validatePhone_shape (s : jsstring) :
  Utils.validatePhone s = true
  <-> exists prefix digits,
        withoutWhiteSpace s = prefix ++ digits /\
        (prefix = [] \/ prefix = u16 "+88" \/ prefix = u16 "01") /\
        forallb isDigit digits = true /\
        (length digits = 11%nat \/ length digits = 13%nat).
Proof. exact (validatePhone_language s). Qed.

(** Any string of exactly 11 or exactly 13 decimal digits passes
    [validatePhone], whatever its leading digits. *)
Theorem validatePhone_any_digits (s : jsstring) :
  forallb isDigit s = true ->
  length s = 11%nat \/ length s = 13%nat ->
  Utils.validatePhone s = true.
Proof.
  intros Hd Hl. apply validatePhone_language. exists [], s.
  rewrite (digits_without_whitespace s Hd). auto.
Qed.

(** Eleven zeros pass. *)
Lemma validatePhone_any_digits_witness :
  Utils.validatePhone (u16 "00000000000") = true.
Proof.
  apply validatePhone_any_digits; [reflexivity | left; reflexivity].
Defined.

(** A string that passes [validatePhone] has, once white space is
    removed, between 11 and 16 code units, each a digit or a plus
    sign. *)
Theorem validatePhone_accepted_bounds (s : jsstring) :
  Utils.validatePhone s = true ->
  (11 <= length (withoutWhiteSpace s) <= 16)%nat /\
  forallb (fun c => isDigit c || (c =? 43)%N) (withoutWhiteSpace s) = true.
Proof.
  intros H. apply validatePhone_language in H.
  destruct H as (prefix & digits & -> & Hp & Hd & Hl).
  rewrite length_app, forallb_app.
  assert (Hdig : forallb (fun c => isDigit c || (c =? 43)%N) digits = true).
  { rewrite forallb_forall in Hd. apply forallb_forall. intros c Hc.
    rewrite (Hd c Hc). reflexivity. }
  rewrite Hdig, andb_true_r.
  destruct Hp as [-> | [-> | ->]]; (split; [simpl; lia | reflexivity]).
Qed.

Lemma validatePhone_accepted_bounds_witness :
  (11 <= length (withoutWhiteSpace (u16 "+880 1712 345678")) <= 16)%nat.
Proof.
  apply (validatePhone_accepted_bounds (u16 "+880 1712 345678")).
  vm_compute. reflexivity.
Defined.

Lemma validateEmail_language (s : jsstring) :
  Utils.validateEmail s = true
  <-> exists loc domain ending,
        s = loc ++ [64%N] ++ domain ++ [46%N] ++ ending /\
        loc <> [] /\ domain <> [] /\ ending <> [] /\
        forallb isMailChar loc = true /\
        forallb isMailChar domain = true /\
        forallb isMailChar ending = true.
Proof.
  unfold Utils.validateEmail, Utils.emailRegex, Utils.notSpaceNorAt.
  rewrite test_matches. change (fun c : N => negb (isWhiteSpace c
                                                    || (c =? 64)%N))
    with isMailChar.
  split.
  - intros H.
    apply matches_Seq_inv in H. destruct H as (a & r1 & -> & Ha & H).
    apply matches_Seq_inv in H. destruct H as (at1 & r2 & -> & Hat & H).
    apply matches_Seq_inv in H. destruct H as (b & r3 & -> & Hb & H).
    apply matches_Seq_inv in H. destruct H as (dot & c & -> & Hdot & Hc).
    apply matches_Plus_class in Ha, Hb, Hc.
    unfold RegExp.Chr in Hat, Hdot.
    apply matches_Class_inv in Hat. destruct Hat as (x & -> & Hx).
    apply matches_Class_inv in Hdot. destruct Hdot as (y & -> & Hy).
    apply N.eqb_eq in Hx. apply N.eqb_eq in Hy. subst x y.
    exists a, b, c. tauto.
  - intros (a & b & c & -> & Hna & Hnb & Hnc & Ha & Hb & Hc).
    apply MSeq; [apply matches_Plus_class; auto|].
    apply MSeq; [constructor; reflexivity|].
    apply MSeq; [apply matches_Plus_class; auto|].
    apply MSeq; [constructor; reflexivity|].
    apply matches_Plus_class; auto.
Qed.

(** [validateEmail] accepts exactly the strings made of a local part, an
    at sign, a domain, a dot and an ending, the three parts non-empty and
    free of white space and at signs. *)
Theorem validateEmail_shape (s : jsstring) :
  Utils.validateEmail s = true
  <-> exists loc domain ending,
        s = loc ++ [64%N] ++ domain ++ [46%N] ++ ending /\
        loc <> [] /\ domain <> [] /\ ending <> [] /\
        forallb isMailChar loc = true /\
        forallb isMailChar domain = true /\
        forallb isMailChar ending = true.
Proof. exact (validateEmail_language s). Qed.

Lemma mailChars_no_at (s : jsstring) :
  forallb isMailChar s = true ->
  count_occ N.eq_dec s 64%N = O /\
  forallb (fun c => negb (isWhiteSpace c)) s = true.
Proof.
  induction s as [|c s IH]; simpl; [auto|].
  intros H. apply andb_true_iff in H. destruct H as [Hc Hs].
  destruct (IH Hs) as [IH1 IH2]. unfold isMailChar in Hc.
  apply negb_true_iff, orb_false_iff in Hc. destruct Hc as [Hw Hat].
  apply N.eqb_neq in Hat. rewrite Hw, IH2. simpl.
  destruct (N.eq_dec c 64%N); [contradiction | auto].
Qed.

(** An accepted email address holds exactly one at sign, at least one
    dot, and no white space. *)
Theorem validateEmail_accepted (s : jsstring) :
  Utils.validateEmail s = true ->
  count_occ N.eq_dec s 64%N = 1%nat /\
  In 46%N s /\
  forallb (fun c => negb (isWhiteSpace c)) s = true.
Proof.
  intros H. apply validateEmail_language in H.
  destruct H as (a & b & c & -> & _ & _ & _ & Ha & Hb & Hc).
  destruct (mailChars_no_at a Ha) as [Ca Wa].
  destruct (mailChars_no_at b Hb) as [Cb Wb].
  destruct (mailChars_no_at c Hc) as [Cc Wc].
  split; [|split].
  - rewrite !count_occ_app, Ca, Cb, Cc. reflexivity.
  - rewrite !in_app_iff. simpl. tauto.
  - rewrite !forallb_app, Wa, Wb, Wc. reflexivity.
Qed.

Lemma validateEmail_accepted_witness :
  count_occ N.eq_dec (u16 "mina@shop.example.bd") 64%N = 1%nat.
Proof.
  apply (validateEmail_accepted (u16 "mina@shop.example.bd")).
  vm_compute. reflexivity.
Defined.

(* ===================================================================== *)
(** ** Checkout: form verdicts, the step counter, the order *)
(* ===================================================================== *)

Lemma trimStart_blank (s : jsstring) :
  forallb isWhiteSpace s = true -> trimStart s = [].
Proof.
  induction s as [|c s IH]; simpl; [reflexivity|].
  intros H. apply andb_true_iff in H. destruct H as [Hc Hs].
  rewrite Hc. apply IH, Hs.
Qed.

Lemma trim_blank (s : jsstring) :
  forallb isWhiteSpace s = true -> trim s = [].
Proof.
  intros H. unfold trim, trimEnd. rewrite (trimStart_blank s H).
  reflexivity.
Qed.


(** A name, phone or address made of white space only, or left empty,
    fails [validateField]. *)
Theorem validateField_blank (value : jsstring) :
  forallb isWhiteSpace value = true ->
  CheckoutManager.validateField (u16 "customer_name") value = false /\
  CheckoutManager.validateField (u16 "phone") value = false /\
  CheckoutManager.validateField (u16 "address") value = false.
Proof.
  intros H. unfold CheckoutManager.validateField.
  rewrite (trim_blank value H). repeat split; vm_compute; reflexivity.
Qed.

Lemma validateField_blank_witness :
  CheckoutManager.validateField (u16 "address") (u16 "            ")
  = false.
Proof.
  apply (validateField_blank (u16 "            ")). reflexivity.
Defined.

Lemma moveStep_in_range (step : Z) (m : CheckoutManager.StepMove) :
  1 <= step <= CheckoutManager.totalSteps ->
  1 <= CheckoutManager.moveStep step m <= CheckoutManager.totalSteps.
Proof.
  unfold CheckoutManager.moveStep, CheckoutManager.nextStep,
    CheckoutManager.previousStep, CheckoutManager.totalSteps.
  intros H. destruct m.
  - destruct (step <? 3) eqn:E; [apply Z.ltb_lt in E|]; lia.
  - destruct (1 <? step) eqn:E; [apply Z.ltb_lt in E|]; lia.
Qed.

(** Whatever sequence of [nextStep] and [previousStep] is applied from
    the initial step, the current step stays between 1 and 3, so the
    first step of the indicator is always shown active. *)
Theorem checkout_step_in_range (moves : list CheckoutManager.StepMove) :
  1 <= fold_left CheckoutManager.moveStep moves
                 CheckoutManager.initialStep <= 3 /\
  CheckoutManager.stepActive
    (fold_left CheckoutManager.moveStep moves CheckoutManager.initialStep)
    1 = true.
Proof.
  assert (H : forall step,
             1 <= step <= 3 ->
             1 <= fold_left CheckoutManager.moveStep moves step <= 3).
  { induction moves as [|m moves IH]; intros step Hs; simpl.
    - exact Hs.
    - apply IH. apply (moveStep_in_range step m). exact Hs. }
  assert (H1 : 1 <= CheckoutManager.initialStep <= 3)
    by (unfold CheckoutManager.initialStep; lia).
  specialize (H _ H1). split; [exact H|].
  unfold CheckoutManager.stepActive. apply Z.leb_le. lia.
Qed.

Lemma fold_left_sum {A : Type} (f : A -> Z) (l : list A) (a : Z) :
  fold_left (fun total x => total + f x) l a
  = a + fold_right (fun x total => f x + total) 0 l.
Proof.
  revert a. induction l as [|x l IH]; intros a; simpl.
  - lia.
  - rewrite IH. lia.
Qed.

Lemma getSubtotal_sum (c : list CartLine.t) :
  getSubtotal c
  = fold_right (fun item total =>
                  CartLine.price item * CartLine.quantity item + total)
               0 c.
Proof.
  unfold getSubtotal.
  rewrite (fold_left_sum
             (fun item => CartLine.price item * CartLine.quantity item)).
  lia.
Qed.

Lemma getItemCount_sum (c : list CartLine.t) :
  getItemCount c
  = fold_right (fun item total => CartLine.quantity item + total) 0 c.
Proof.
  unfold getItemCount. rewrite (fold_left_sum CartLine.quantity). lia.
Qed.

(** The order built at submission carries one item per cart line, in
    cart order, with that line's product id, quantity and price; its
    items add up to the cart's subtotal and item count; and its email and
    notes are strings even when the form leaves them out. *)
Theorem prepareOrderData_mirrors_cart
  (toLowerCase : jsstring -> jsstring) (formData : FormData.t)
  (c : list CartLine.t) :
  let order := Checkout.prepareOrderData toLowerCase formData c in
  length (Order.products order) = length c /\
  (forall (i : nat) (line : CartLine.t),
     c !! i = Some line ->
     exists item,
       Order.products order !! i = Some item /\
       OrderItem.product_id item = CartLine.id line /\
       OrderItem.quantity item = CartLine.quantity line /\
       OrderItem.price item = CartLine.price line) /\
  Checkout.itemsAmount (Order.products order) = getSubtotal c /\
  Checkout.itemsPieces (Order.products order) = getItemCount c /\
  Order.email order <> Null /\ Order.email order <> Undefined /\
  Order.special_notes order <> Null /\
  Order.special_notes order <> Undefined.
Proof.
  simpl. split; [apply length_map|]. split; [|split; [|split]].
  - intros i. unfold getOrderItems.
    revert i. induction c as [|first c IH]; intros [|i] line Hl;
      try discriminate; simpl in *.
    + injection Hl as <-. eauto.
    + apply (IH i line Hl).
  - rewrite getSubtotal_sum. unfold Checkout.itemsAmount, getOrderItems.
    induction c as [|line c IH]; simpl; [reflexivity|].
    rewrite IH. reflexivity.
  - rewrite getItemCount_sum. unfold Checkout.itemsPieces, getOrderItems.
    induction c as [|line c IH]; simpl; [reflexivity|].
    rewrite IH. reflexivity.
  - unfold orElse.
    destruct (FormData.email formData) as [| |[|? ?]];
      destruct (FormData.special_notes formData) as [| |[|? ?]];
      simpl; repeat split; discriminate.
Qed.

(* ===================================================================== *)
(** ** Cart Manager: what each operation leaves behind *)
(* ===================================================================== *)

(** The common tail of the mutating operations. *)
Lemma commit_run (c : list CartLine.t) (w : World) :
  (setCart c ;; saveCart ;; updateCartDisplay ;; dispatchCartUpdate) w
  = (Returned tt, committed c w).
Proof.
  run_cart. unfold committed.
  destruct (storageWritable w); simpl; rewrite <- !app_assoc; reflexivity.
Qed.

Lemma updateQuantity_run (w : World) (index quantity : Z) :
  validIndex (cart w) index -> 0 < quantity ->
  updateQuantity index quantity w
  = (Returned tt,
     committed (alter (CartLine.setQuantity quantity) (Z.to_nat index)
                      (cart w)) w).
Proof.
  intros Hi Hq. rewrite <- commit_run. unfold updateQuantity.
  unfold mbind at 1, M_bind, bind at 1, getCart at 1.
  rewrite (validIndex_test _ _ Hi).
  replace (0 <? quantity) with true by (symmetry; apply Z.ltb_lt; lia).
  reflexivity.
Qed.

Lemma removeFromCart_run (w : World) (index : Z) :
  validIndex (cart w) index ->
  removeFromCart index w
  = (Returned tt, committed (delete (Z.to_nat index) (cart w)) w).
Proof.
  intros Hi. rewrite <- commit_run. unfold removeFromCart.
  unfold mbind at 1, M_bind, bind at 1, getCart at 1.
  rewrite (validIndex_test _ _ Hi). reflexivity.
Qed.

Lemma removeFromCart_ignored (w : World) (index : Z) :
  ~ validIndex (cart w) index -> removeFromCart index w = (Returned tt, w).
Proof.
  intros Hi. unfold removeFromCart.
  unfold mbind at 1, M_bind, bind at 1, getCart at 1.
  rewrite (invalidIndex_test _ _ Hi). reflexivity.
Qed.

Lemma clearCart_run (w : World) :
  clearCart w = (Returned tt, committed [] w).
Proof. apply commit_run. Qed.

Lemma addToCart_run (w : World) (now : jsstring) (item : Item.t) :
  truthy (Item.id item) = true ->
  addToCart now (Some item) w
  = (Returned tt, committed (cartAfter (addToCart now (Some item)) w) w).
Proof.
  intros Hid.
  destruct (findIndex (sameVariant item) (cart w)) as [i|] eqn:E.
  - rewrite (addToCart_found w now item i Hid E), <- commit_run.
    unfold addToCart. rewrite Hid. cbn [negb].
    unfold mbind at 1, M_bind, bind at 1, getCart at 1. rewrite E.
    reflexivity.
  - rewrite (addToCart_not_found w now item Hid E), <- commit_run.
    unfold addToCart. rewrite Hid. cbn [negb].
    unfold mbind at 1, M_bind, bind at 1, getCart at 1. rewrite E.
    reflexivity.
Qed.

Lemma addToCart_rejected (w : World) (now : jsstring)
  (item : option Item.t) :
  match item with
  | Some it => truthy (Item.id it) = false
  | None => True
  end ->
  addToCart now item w
  = (Returned tt,
     mkWorld (cart w) (products w) (savedCart w) (storageWritable w)
             (effects w ++ [ConsoleError (u16 "Invalid item:")])).
Proof.
  destruct item as [it|]; intros H; unfold addToCart; [rewrite H|];
    reflexivity.
Qed.

Lemma committed_facts (c : list CartLine.t) (w : World) :
  cart (committed c w) = c /\
  products (committed c w) = products w /\
  storageWritable (committed c w) = storageWritable w /\
  (storageWritable w = true ->
   savedCart (committed c w) = Some c /\
   drop (length (effects w)) (effects (committed c w))
   = [SetItem storageKey c; UpdateCartDisplay; CartUpdated c]) /\
  (storageWritable w = false ->
   savedCart (committed c w) = savedCart w).
Proof.
  unfold committed. destruct (storageWritable w); simpl.
  - split; [reflexivity|]. split; [reflexivity|]. split; [reflexivity|].
    split; [|discriminate]. intros _. split; [reflexivity|].
    apply drop_app_length.
  - split; [reflexivity|]. split; [reflexivity|]. split; [reflexivity|].
    split; [discriminate | reflexivity].
Qed.

Section Sums.

Variable f : CartLine.t -> Z.

Lemma sum_app (l k : list CartLine.t) :
  fold_right (fun y t => f y + t) 0 (l ++ k)
  = fold_right (fun y t => f y + t) 0 l
    + fold_right (fun y t => f y + t) 0 k.
Proof. induction l as [|x l IH]; simpl; lia. Qed.

Lemma sum_alter (g : CartLine.t -> CartLine.t) (l : list CartLine.t)
  (i : nat) (x : CartLine.t) :
  l !! i = Some x ->
  fold_right (fun y t => f y + t) 0 (alter g i l)
  = fold_right (fun y t => f y + t) 0 l - f x + f (g x).
Proof.
  revert i. induction l as [|y l IH]; intros [|i] H; try discriminate.
  - simpl in *. injection H as ->. lia.
  - specialize (IH i H). simpl in *.
    change (alter g i l) with (list_alter g i l) in IH. lia.
Qed.

Lemma sum_delete (l : list CartLine.t) (i : nat) (x : CartLine.t) :
  l !! i = Some x ->
  fold_right (fun y t => f y + t) 0 (delete i l)
  = fold_right (fun y t => f y + t) 0 l - f x.
Proof.
  revert i. induction l as [|y l IH]; intros [|i] H; try discriminate.
  - simpl in *. injection H as ->. lia.
  - specialize (IH i H).
    change (delete (S i) (y :: l)) with (y :: delete i l).
    cbn [fold_right]. lia.
Qed.

End Sums.

(** Adding an item with a usable id raises the cart's item count by the
    item's quantity (1 when the quantity is missing or 0), whether the
    item is merged into a line or appended. *)
Theorem addToCart_item_count (w : World) (now : jsstring) (item : Item.t) :
  truthy (Item.id item) = true ->
  getItemCount (cartAfter (addToCart now (Some item)) w)
  = getItemCount (cart w) + numOr (Item.quantity item) 1.
Proof.
  intros Hid. rewrite !getItemCount_sum.
  destruct (findIndex (sameVariant item) (cart w)) as [i|] eqn:E.
  - rewrite (addToCart_found w now item i Hid E).
    destruct (findIndex_Some _ _ _ E) as (x & Hx & _).
    rewrite (sum_alter CartLine.quantity _ _ _ _ Hx). simpl. lia.
  - rewrite (addToCart_not_found w now item Hid E).
    rewrite (sum_app CartLine.quantity). simpl. lia.
Qed.

Lemma addToCart_item_count_witness :
  getItemCount (cartAfter (addToCart [] (Some (pageItem 3)))
                          (worldWith [lineOf 2]))
  = getItemCount [lineOf 2] + 3.
Proof.
  apply (addToCart_item_count (worldWith [lineOf 2]) [] (pageItem 3)).
  reflexivity.
Defined.

(** Adding an item never removes or reorders lines and never touches the
    id, name, price, image, color, size or time stamp of a line already
    in the cart: each old line stays at its index, and its quantity is
    either kept or raised by the item's quantity.  The cart grows by at
    most one line, at the end. *)
Theorem addToCart_keeps_lines (w : World) (now : jsstring) (item : Item.t) :
  truthy (Item.id item) = true ->
  (length (cart w) <= length (cartAfter (addToCart now (Some item)) w)
   <= S (length (cart w)))%nat /\
  (forall (j : nat) (old : CartLine.t),
     cart w !! j = Some old ->
     exists line,
       cartAfter (addToCart now (Some item)) w !! j = Some line /\
       CartLine.id line = CartLine.id old /\
       CartLine.name line = CartLine.name old /\
       CartLine.price line = CartLine.price old /\
       CartLine.image line = CartLine.image old /\
       CartLine.color line = CartLine.color old /\
       CartLine.size line = CartLine.size old /\
       CartLine.addedAt line = CartLine.addedAt old /\
       (CartLine.quantity line = CartLine.quantity old \/
        CartLine.quantity line
        = CartLine.quantity old + numOr (Item.quantity item) 1)).
Proof.
  intros Hid.
  destruct (findIndex (sameVariant item) (cart w)) as [i|] eqn:E.
  - rewrite (addToCart_found w now item i Hid E), length_alter.
    split; [lia|]. intros j old Hj.
    destruct (decide (i = j)) as [->|Hne].
    + rewrite list_lookup_alter_eq, Hj. simpl.
      eexists. split; [reflexivity|]. simpl. tauto.
    + rewrite list_lookup_alter_ne by exact Hne.
      exists old. tauto.
  - rewrite (addToCart_not_found w now item Hid E), length_app. simpl.
    split; [lia|]. intros j old Hj. exists old.
    rewrite lookup_app_l by (eapply lookup_lt_Some; exact Hj). tauto.
Qed.

Lemma addToCart_keeps_lines_witness :
  (length [lineOf 2]
   <= length (cartAfter (addToCart [] (Some cardItem))
                        (worldWith [lineOf 2]))
   <= 2)%nat.
Proof.
  apply (addToCart_keeps_lines (worldWith [lineOf 2]) [] cardItem).
  reflexivity.
Defined.

(** [removeFromCart] on an index inside the cart deletes exactly that
    line: the lines before and after it are kept in order, the cart is
    one line shorter and the item count falls by that line's quantity.
    On any other index it returns without touching the cart, the storage
    or the display. *)
Theorem removeFromCart_effect (w : World) (index : Z) :
  (validIndex (cart w) index ->
   exists removed,
     cart w !! Z.to_nat index = Some removed /\
     cartAfter (removeFromCart index) w
     = take (Z.to_nat index) (cart w)
       ++ drop (S (Z.to_nat index)) (cart w) /\
     S (length (cartAfter (removeFromCart index) w)) = length (cart w) /\
     getItemCount (cartAfter (removeFromCart index) w)
     = getItemCount (cart w) - CartLine.quantity removed) /\
  (~ validIndex (cart w) index ->
   removeFromCart index w = (Returned tt, w)).
Proof.
  split; [|apply removeFromCart_ignored].
  intros Hi. destruct (validIndex_lookup _ _ Hi) as [removed Hl].
  exists removed. split; [exact Hl|].
  unfold cartAfter. rewrite (removeFromCart_run w index Hi). simpl.
  destruct (committed_facts (delete (Z.to_nat index) (cart w)) w)
    as (-> & _).
  split; [apply delete_take_drop|]. split.
  - rewrite length_delete by (eexists; exact Hl).
    apply lookup_lt_Some in Hl. lia.
  - rewrite !getItemCount_sum.
    apply (sum_delete CartLine.quantity _ _ _ Hl).
Qed.

Lemma removeFromCart_effect_witness :
  cartAfter (removeFromCart 1) (worldWith [lineOf 2; lineOf 3; lineOf 4])
  = [lineOf 2; lineOf 4].
Proof.
  destruct (removeFromCart_effect
              (worldWith [lineOf 2; lineOf 3; lineOf 4]) 1) as [H _].
  destruct H as (removed & _ & H & _).
  - unfold validIndex. simpl. lia.
  - exact H.
Defined.

(** Setting the quantity of a line changes the subtotal by that line's
    price times the change in quantity. *)
Theorem updateQuantity_subtotal (w : World) (index quantity : Z)
  (line : CartLine.t) :
  cartAt (cart w) index = Some line -> 0 < quantity ->
  getSubtotal (cartAfter (updateQuantity index quantity) w)
  = getSubtotal (cart w)
    + CartLine.price line * (quantity - CartLine.quantity line).
Proof.
  intros Hat Hq. destruct (cartAt_valid _ _ _ Hat) as [Hi Hl].
  rewrite (updateQuantity_cart w index quantity Hi Hq), !getSubtotal_sum.
  rewrite (sum_alter (fun item => CartLine.price item
                                  * CartLine.quantity item) _ _ _ _ Hl).
  simpl. lia.
Qed.

Lemma updateQuantity_subtotal_witness :
  getSubtotal (cartAfter (updateQuantity 0 5) (worldWith [lineOf 2]))
  = getSubtotal [lineOf 2] + 500 * (5 - 2).
Proof.
  apply (updateQuantity_subtotal (worldWith [lineOf 2]) 0 5 (lineOf 2));
    [reflexivity | lia].
Defined.

Lemma announced (m : M unit) (w : World) (c : list CartLine.t) :
  m w = (Returned tt, committed c w) ->
  storageWritable w = true ->
  cartAfter m w = c /\
  effectsOf m w = [SetItem storageKey c; UpdateCartDisplay; CartUpdated c]
  /\ savedCart (snd (m w)) = Some c.
Proof.
  intros Hm Hw. unfold cartAfter, effectsOf. rewrite Hm. simpl.
  destruct (committed_facts c w) as (Hc & _ & _ & H & _).
  destruct (H Hw) as [Hs He]. auto.
Qed.

(** With writable storage, every operation that changes the cart writes
    the new cart to storage, refreshes the display and dispatches one
    cart-updated event carrying the new cart, in that order and nothing
    else. *)
Theorem cart_changes_are_announced (w : World) :
  storageWritable w = true ->
  (forall (now : jsstring) (item : Item.t),
     truthy (Item.id item) = true ->
     effectsOf (addToCart now (Some item)) w
     = [SetItem storageKey (cartAfter (addToCart now (Some item)) w);
        UpdateCartDisplay;
        CartUpdated (cartAfter (addToCart now (Some item)) w)]) /\
  (forall index : Z,
     validIndex (cart w) index ->
     effectsOf (removeFromCart index) w
     = [SetItem storageKey (cartAfter (removeFromCart index) w);
        UpdateCartDisplay;
        CartUpdated (cartAfter (removeFromCart index) w)]) /\
  (forall index quantity : Z,
     validIndex (cart w) index -> 0 < quantity ->
     effectsOf (updateQuantity index quantity) w
     = [SetItem storageKey (cartAfter (updateQuantity index quantity) w);
        UpdateCartDisplay;
        CartUpdated (cartAfter (updateQuantity index quantity) w)]) /\
  effectsOf clearCart w
  = [SetItem storageKey []; UpdateCartDisplay; CartUpdated []].
Proof.
  intros Hw. repeat split.
  - intros now item Hid.
    destruct (announced _ w _ (addToCart_run w now item Hid) Hw)
      as (_ & He & _).
    exact He.
  - intros index Hi.
    destruct (announced _ w _ (removeFromCart_run w index Hi) Hw)
      as (Hc & He & _).
    rewrite Hc. exact He.
  - intros index quantity Hi Hq.
    destruct (announced _ w _ (updateQuantity_run w index quantity Hi Hq)
                        Hw) as (Hc & He & _).
    rewrite Hc. exact He.
  - destruct (announced _ w _ (clearCart_run w) Hw) as (_ & He & _).
    exact He.
Qed.

Lemma cart_changes_are_announced_witness :
  effectsOf clearCart (worldWith [lineOf 2])
  = [SetItem storageKey []; UpdateCartDisplay; CartUpdated []].
Proof.
  apply (cart_changes_are_announced (worldWith [lineOf 2])). reflexivity.
Defined.

Lemma cartAt_none (c : list CartLine.t) (index : Z) :
  ~ validIndex c index -> cartAt c index = None.
Proof.
  unfold validIndex, cartAt. intros H.
  destruct (index <? 0) eqn:E; [reflexivity|].
  apply Z.ltb_ge in E. apply lookup_ge_None. lia.
Qed.

(** On an index that addresses no line, the increment and decrement
    buttons throw a TypeError and leave everything as it was; they do
    not return quietly as [removeFromCart] and [updateQuantity] do. *)
Theorem quantity_buttons_throw (w : World) (index : Z) :
  ~ validIndex (cart w) index ->
  increaseQuantity index w = (Thrown TypeError, w) /\
  decreaseQuantity index w = (Thrown TypeError, w) /\
  removeFromCart index w = (Returned tt, w) /\
  updateQuantity index 1 w = (Returned tt, w).
Proof.
  intros Hi. pose proof (cartAt_none _ _ Hi) as Hat.
  unfold increaseQuantity, decreaseQuantity.
  unfold mbind, M_bind, bind, getCart. rewrite Hat.
  repeat split.
  - apply removeFromCart_ignored. exact Hi.
  - apply updateQuantity_ignored. right. exact Hi.
Qed.

Lemma quantity_buttons_throw_witness :
  decreaseQuantity 3 (worldWith [lineOf 2])
  = (Thrown TypeError, worldWith [lineOf 2]).
Proof.
  apply (quantity_buttons_throw (worldWith [lineOf 2]) 3).
  unfold validIndex. simpl. lia.
Defined.

(** On a line whose quantity is 10 or more, the increment button only
    shows the "at most 10" warning: the cart, the stored cart and the
    catalog are untouched and nothing is saved or dispatched. *)
Theorem increaseQuantity_at_limit (w : World) (index : Z)
  (line : CartLine.t) :
  cartAt (cart w) index = Some line -> 10 <= CartLine.quantity line ->
  increaseQuantity index w
  = (Returned tt,
     mkWorld (cart w) (products w) (savedCart w) (storageWritable w)
             (effects w ++ [ShowNotification msgAtMostTen
                                             (u16 "warning")])).
Proof.
  intros Hat Hq. unfold increaseQuantity.
  unfold mbind, M_bind, bind, getCart. rewrite Hat.
  replace (CartLine.quantity line <? 10) with false
    by (symmetry; apply Z.ltb_ge; lia).
  reflexivity.
Qed.

Lemma increaseQuantity_at_limit_witness :
  cartAfter (increaseQuantity 0) (worldWith [lineOf 10]) = [lineOf 10].
Proof.
  unfold cartAfter.
  rewrite (increaseQuantity_at_limit (worldWith [lineOf 10]) 0 (lineOf 10));
    [reflexivity | reflexivity | simpl; lia].
Defined.

Lemma setQuantity_same (line : CartLine.t) :
  CartLine.setQuantity (CartLine.quantity line) line = line.
Proof. destruct line. reflexivity. Qed.

Lemma alter_setQuantity_twice (c : list CartLine.t) (i : nat) (p q : Z) :
  alter (CartLine.setQuantity q) i (alter (CartLine.setQuantity p) i c)
  = alter (CartLine.setQuantity q) i c.
Proof.
  revert i. induction c as [|x c IH]; intros [|i]; simpl;
    try reflexivity.
  f_equal. apply IH.
Qed.

Lemma alter_setQuantity_same (c : list CartLine.t) (i : nat)
  (line : CartLine.t) :
  c !! i = Some line ->
  alter (CartLine.setQuantity (CartLine.quantity line)) i c = c.
Proof.
  revert i. induction c as [|x c IH]; intros [|i] H; try discriminate;
    simpl in *.
  - injection H as ->. rewrite setQuantity_same. reflexivity.
  - f_equal. apply IH. exact H.
Qed.

Lemma increaseQuantity_cart (w : World) (index : Z) (line : CartLine.t) :
  cartAt (cart w) index = Some line -> CartLine.quantity line < 10 ->
  0 < CartLine.quantity line + 1 ->
  increaseQuantity index w
  = (Returned tt,
     committed (alter (CartLine.setQuantity (CartLine.quantity line + 1))
                      (Z.to_nat index) (cart w)) w).
Proof.
  intros Hat Hq Hpos. destruct (cartAt_valid _ _ _ Hat) as [Hi _].
  rewrite <- (updateQuantity_run w index _ Hi Hpos).
  unfold increaseQuantity.
  unfold mbind at 1, M_bind, bind at 1, getCart at 1. rewrite Hat.
  replace (CartLine.quantity line <? 10) with true
    by (symmetry; apply Z.ltb_lt; lia).
  reflexivity.
Qed.

Lemma decreaseQuantity_cart (w : World) (index : Z) (line : CartLine.t) :
  cartAt (cart w) index = Some line -> 1 < CartLine.quantity line ->
  decreaseQuantity index w
  = (Returned tt,
     committed (alter (CartLine.setQuantity (CartLine.quantity line - 1))
                      (Z.to_nat index) (cart w)) w).
Proof.
  intros Hat Hq. destruct (cartAt_valid _ _ _ Hat) as [Hi _].
  rewrite <- (updateQuantity_run w index _ Hi) by lia.
  unfold decreaseQuantity.
  unfold mbind at 1, M_bind, bind at 1, getCart at 1. rewrite Hat.
  replace (1 <? CartLine.quantity line) with true
    by (symmetry; apply Z.ltb_lt; lia).
  reflexivity.
Qed.

Lemma cartAt_committed_alter (w : World) (index q : Z)
  (line : CartLine.t) :
  cartAt (cart w) index = Some line ->
  cartAt (cart (committed (alter (CartLine.setQuantity q)
                                 (Z.to_nat index) (cart w)) w)) index
  = Some (CartLine.setQuantity q line).
Proof.
  intros Hat. destruct (committed_facts
                          (alter (CartLine.setQuantity q)
                                 (Z.to_nat index) (cart w)) w) as (-> & _).
  unfold cartAt in *. destruct (index <? 0); [discriminate|].
  rewrite list_lookup_alter_eq, Hat. reflexivity.
Qed.

(** The two quantity buttons undo each other: on a line with quantity
    from 1 to 9, plus followed by minus gives back the cart, and on a
    line with quantity from 2 to 10, minus followed by plus does. *)
Theorem quantity_buttons_round_trip (w : World) (index : Z)
  (line : CartLine.t) :
  cartAt (cart w) index = Some line ->
  (1 <= CartLine.quantity line <= 9 ->
   cartAfter (increaseQuantity index ;; decreaseQuantity index) w
   = cart w) /\
  (2 <= CartLine.quantity line <= 10 ->
   cartAfter (decreaseQuantity index ;; increaseQuantity index) w
   = cart w).
Proof.
  intros Hat. split; intros Hq; unfold cartAfter.
  - unfold mbind at 1, M_bind, bind at 1.
    rewrite (increaseQuantity_cart w index line Hat) by lia.
    pose proof (cartAt_committed_alter
                  w index (CartLine.quantity line + 1) line Hat) as Hat'.
    rewrite (decreaseQuantity_cart _ index _ Hat') by (simpl; lia).
    simpl.
    match goal with
    | |- cart (committed ?c ?v) = _ =>
        destruct (committed_facts c v) as (-> & _)
    end.
    destruct (committed_facts
                (alter (CartLine.setQuantity (CartLine.quantity line + 1))
                       (Z.to_nat index) (cart w)) w) as (-> & _).
    rewrite alter_setQuantity_twice.
    replace (CartLine.quantity line + 1 - 1) with (CartLine.quantity line)
      by lia.
    apply alter_setQuantity_same.
    destruct (cartAt_valid _ _ _ Hat) as [_ Hl]. exact Hl.
  - unfold mbind at 1, M_bind, bind at 1.
    rewrite (decreaseQuantity_cart w index line Hat) by lia.
    pose proof (cartAt_committed_alter
                  w index (CartLine.quantity line - 1) line Hat) as Hat'.
    rewrite (increaseQuantity_cart _ index _ Hat') by (simpl; lia).
    simpl.
    match goal with
    | |- cart (committed ?c ?v) = _ =>
        destruct (committed_facts c v) as (-> & _)
    end.
    destruct (committed_facts
                (alter (CartLine.setQuantity (CartLine.quantity line - 1))
                       (Z.to_nat index) (cart w)) w) as (-> & _).
    rewrite alter_setQuantity_twice.
    replace (CartLine.quantity line - 1 + 1) with (CartLine.quantity line)
      by lia.
    apply alter_setQuantity_same.
    destruct (cartAt_valid _ _ _ Hat) as [_ Hl]. exact Hl.
Qed.

Lemma quantity_buttons_round_trip_witness :
  cartAfter (increaseQuantity 0 ;; decreaseQuantity 0)
            (worldWith [lineOf 4])
  = [lineOf 4].
Proof.
  destruct (quantity_buttons_round_trip (worldWith [lineOf 4]) 0
              (lineOf 4) eq_refl) as [H _].
  apply H. simpl. lia.
Defined.

(* ===================================================================== *)
(** ** Cart Manager: the stored cart *)
(* ===================================================================== *)

(** How a step can leave the stored cart relative to the cart. *)
Lemma storage_unchanged (w : World) :
  storageWritable w = storageWritable w /\
  (cart w = cart w /\ savedCart w = savedCart w
   \/ storageWritable w = true /\ savedCart w = Some (cart w)
   \/ storageWritable w = false /\ savedCart w = savedCart w).
Proof. auto. Qed.

Lemma storage_committed (c : list CartLine.t) (w : World) :
  storageWritable (committed c w) = storageWritable w /\
  (cart (committed c w) = cart w /\ savedCart (committed c w) = savedCart w
   \/ storageWritable w = true /\
      savedCart (committed c w) = Some (cart (committed c w))
   \/ storageWritable w = false /\ savedCart (committed c w) = savedCart w).
Proof.
  unfold committed. destruct (storageWritable w); simpl; auto.
Qed.

Lemma validIndex_dec (c : list CartLine.t) (index : Z) :
  {validIndex c index} + {~ validIndex c index}.
Proof.
  unfold validIndex.
  destruct (Z_le_dec 0 index), (Z_lt_dec index (Z.of_nat (length c)));
    (left; lia) || (right; lia).
Qed.

Lemma updateQuantity_outcome (w : World) (index quantity : Z) :
  updateQuantity index quantity w = (Returned tt, w) \/
  exists c, updateQuantity index quantity w = (Returned tt, committed c w).
Proof.
  destruct (validIndex_dec (cart w) index) as [Hi|Hi].
  - destruct (Z_lt_dec 0 quantity) as [Hq|Hq].
    + right. eexists. apply (updateQuantity_run w index quantity Hi Hq).
    + left. apply updateQuantity_ignored. left. lia.
  - left. apply updateQuantity_ignored. right. exact Hi.
Qed.

Lemma removeFromCart_outcome (w : World) (index : Z) :
  removeFromCart index w = (Returned tt, w) \/
  exists c, removeFromCart index w = (Returned tt, committed c w).
Proof.
  destruct (validIndex_dec (cart w) index) as [Hi|Hi].
  - right. eexists. apply (removeFromCart_run w index Hi).
  - left. apply removeFromCart_ignored. exact Hi.
Qed.

Lemma validateCartItems_outcome (w : World) :
  validateCartItems w = (Returned tt, w) \/
  (DataManager.isProductsLoaded (products w) = true /\
   anyMissing (products w) (cart w) = true /\
   validateCartItems w
   = (Returned tt,
      if storageWritable w then
        mkWorld (refreshedLines (products w) (cart w)) (products w)
                (Some (refreshedLines (products w) (cart w))) true
                (effects w
                 ++ [SetItem storageKey
                       (refreshedLines (products w) (cart w));
                     UpdateCartDisplay])
      else
        mkWorld (refreshedLines (products w) (cart w)) (products w)
                (savedCart w) false
                (effects w ++ [ConsoleError (u16 "Error saving cart:");
                               UpdateCartDisplay]))).
Proof.
  destruct (DataManager.isProductsLoaded (products w)) eqn:Hl.
  - destruct (anyMissing (products w) (cart w)) eqn:Hm.
    + right. split; [reflexivity|]. split; [reflexivity|].
      run_cart. rewrite Hl. simpl. rewrite validate_loop, Hm. simpl.
      destruct (storageWritable w); simpl; rewrite Nat.eqb_refl; simpl;
        rewrite <- app_assoc; reflexivity.
    + left. apply validateCartItems_all_found. exact Hm.
  - left. run_cart. rewrite Hl. reflexivity.
Qed.

Lemma increaseQuantity_unfold (index : Z) (w : World) :
  increaseQuantity index w
  = match cartAt (cart w) index with
    | Some item =>
        if CartLine.quantity item <? 10
        then updateQuantity index (CartLine.quantity item + 1) w
        else showNotification msgAtMostTen (u16 "warning") w
    | None => (Thrown TypeError, w)
    end.
Proof.
  unfold increaseQuantity. unfold mbind at 1, M_bind, bind at 1,
    getCart at 1.
  destruct (cartAt (cart w) index) as [item|]; [|reflexivity].
  destruct (CartLine.quantity item <? 10); reflexivity.
Qed.

Lemma decreaseQuantity_unfold (index : Z) (w : World) :
  decreaseQuantity index w
  = match cartAt (cart w) index with
    | Some item =>
        if 1 <? CartLine.quantity item
        then updateQuantity index (CartLine.quantity item - 1) w
        else removeFromCart index w
    | None => (Thrown TypeError, w)
    end.
Proof.
  unfold decreaseQuantity. unfold mbind at 1, M_bind, bind at 1,
    getCart at 1.
  destruct (cartAt (cart w) index) as [item|]; [|reflexivity].
  destruct (1 <? CartLine.quantity item); reflexivity.
Qed.

Lemma runOp_storage (op : CartOp) (w : World) :
  storageWritable (snd (runOp op w)) = storageWritable w /\
  (cart (snd (runOp op w)) = cart w /\
   savedCart (snd (runOp op w)) = savedCart w
   \/ storageWritable w = true /\
      savedCart (snd (runOp op w)) = Some (cart (snd (runOp op w)))
   \/ storageWritable w = false /\
      savedCart (snd (runOp op w)) = savedCart w).
Proof.
  destruct op as [now item|index|index quantity| |index|index| |catalog];
    cbn [runOp].
  - destruct item as [item|].
    + destruct (truthy (Item.id item)) eqn:Hid.
      * rewrite (addToCart_run w now item Hid). apply storage_committed.
      * rewrite (addToCart_rejected w now (Some item) Hid). simpl. auto.
    + rewrite (addToCart_rejected w now None I). simpl. auto.
  - destruct (removeFromCart_outcome w index) as [->|(c & ->)];
      [apply storage_unchanged | apply storage_committed].
  - destruct (updateQuantity_outcome w index quantity) as [->|(c & ->)];
      [apply storage_unchanged | apply storage_committed].
  - rewrite clearCart_run. apply storage_committed.
  - rewrite increaseQuantity_unfold.
    destruct (cartAt (cart w) index) as [line|];
      [|apply storage_unchanged].
    destruct (CartLine.quantity line <? 10).
    + destruct (updateQuantity_outcome w index
                  (CartLine.quantity line + 1)) as [->|(c & ->)];
        [apply storage_unchanged | apply storage_committed].
    + simpl. auto.
  - rewrite decreaseQuantity_unfold.
    destruct (cartAt (cart w) index) as [line|];
      [|apply storage_unchanged].
    destruct (1 <? CartLine.quantity line).
    + destruct (updateQuantity_outcome w index
                  (CartLine.quantity line - 1)) as [->|(c & ->)];
        [apply storage_unchanged | apply storage_committed].
    + destruct (removeFromCart_outcome w index) as [->|(c & ->)];
        [apply storage_unchanged | apply storage_committed].
  - destruct (validateCartItems_outcome w) as [->|(_ & _ & ->)];
      [apply storage_unchanged|].
    simpl. destruct (storageWritable w); simpl; auto.
  - simpl. auto.
Qed.

Lemma construct_cart (w : World) :
  cartAfter construct w
  = match savedCart w with Some c => c | None => [] end /\
  savedCart (snd (construct w)) = savedCart w /\
  storageWritable (snd (construct w)) = storageWritable w.
Proof.
  unfold cartAfter, construct, loadCart, loadCartFrom, storedEntry.
  run_cart. destruct (savedCart w); simpl; auto.
Qed.

Lemma restorable_reload (w : World) :
  restorable w -> cartAfter construct w = cart w.
Proof.
  intros [H|[H1 H2]]; destruct (construct_cart w) as (-> & _);
    [rewrite H | rewrite H1, H2]; reflexivity.
Qed.

(** With writable storage, a cart manager that was constructed and then
    went through any sequence of its operations and of catalog
    replacements is found again by a page load: constructing a new cart
    manager yields the same cart. *)
Theorem cart_survives_reload (w : World) (ops : list CartOp) :
  storageWritable w = true ->
  cartAfter construct (runOps ops (snd (construct w)))
  = cart (runOps ops (snd (construct w))).
Proof.
  intros Hw. apply restorable_reload.
  assert (H0 : storageWritable (snd (construct w)) = true /\
               restorable (snd (construct w))).
  { destruct (construct_cart w) as (Hc & Hs & Hwr).
    split; [congruence|]. unfold restorable, cartAfter in *.
    rewrite Hs, Hc. destruct (savedCart w); auto. }
  revert H0. generalize (snd (construct w)). clear w Hw.
  unfold runOps. induction ops as [|op ops IH]; intros w [Hw Hr]; simpl.
  - exact Hr.
  - apply IH. destruct (runOp_storage op w) as (Hsame & Hcase).
    split; [congruence|].
    destruct Hcase as [[Hc Hs]|[[_ Hs]|[Hf _]]].
    + unfold restorable in *. rewrite Hc, Hs. exact Hr.
    + left. exact Hs.
    + congruence.
Qed.

Lemma cart_survives_reload_witness :
  cartAfter construct
    (runOps [OpAdd [] (Some cardItem); OpIncrease 0; OpDecrease 5]
            (snd (construct (worldWith []))))
  = cart (runOps [OpAdd [] (Some cardItem); OpIncrease 0; OpDecrease 5]
                 (snd (construct (worldWith [])))).
Proof.
  apply (cart_survives_reload (worldWith [])). reflexivity.
Defined.



(* ===================================================================== *)
(** ** Cart Manager: reconciliation, where it does take effect *)
(* ===================================================================== *)

Lemma refreshed_all_found (catalog : list Product.t)
  (c : list CartLine.t) :
  anyMissing catalog (refreshedLines catalog c) = false.
Proof.
  induction c as [|item c IH]; [reflexivity|].
  rewrite refreshedLines_cons.
  destruct (DataManager.getProductById catalog (CartLine.id item))
    as [product|] eqn:E; [|exact IH].
  rewrite anyMissing_cons. simpl. rewrite E. exact IH.
Qed.

Lemma refreshed_length (catalog : list Product.t) (c : list CartLine.t) :
  (length (refreshedLines catalog c) <= length c)%nat /\
  (anyMissing catalog c = true ->
   (length (refreshedLines catalog c) < length c)%nat).
Proof.
  induction c as [|item c [IH1 IH2]]; [simpl; split; [lia|discriminate]|].
  rewrite refreshedLines_cons, anyMissing_cons.
  destruct (DataManager.getProductById catalog (CartLine.id item));
    simpl; split; try lia.
  intros H. specialize (IH2 H). lia.
Qed.

Lemma refreshed_In (catalog : list Product.t) (c : list CartLine.t)
  (line : CartLine.t) :
  In line (refreshedLines catalog c)
  <-> exists old product,
        In old c /\
        DataManager.getProductById catalog (CartLine.id old)
        = Some product /\
        line = CartLine.refresh (Product.name product)
                                (Product.price product)
                                (Product.mainImage product) old.
Proof.
  induction c as [|item c IH].
  - simpl. split; [intros [] | intros (? & ? & [] & _)].
  - rewrite refreshedLines_cons.
    destruct (DataManager.getProductById catalog (CartLine.id item))
      as [product|] eqn:E.
    + simpl. rewrite IH. split.
      * intros [<-|(old & p & Hin & Hp & ->)].
        -- exists item, product. auto.
        -- exists old, p. auto.
      * intros (old & p & [<-|Hin] & Hp & ->).
        -- left. congruence.
        -- right. exists old, p. auto.
    + rewrite IH. split.
      * intros (old & p & Hin & Hp & ->). exists old, p. simpl. auto.
      * intros (old & p & [<-|Hin] & Hp & ->); [congruence|].
        exists old, p. auto.
Qed.

(** Reconciliation is idempotent: a second run right after the first
    changes nothing at all. *)
Theorem validateCartItems_idempotent (w : World) :
  validateCartItems (snd (validateCartItems w))
  = (Returned tt, snd (validateCartItems w)) /\
  cartAfter (validateCartItems ;; validateCartItems) w
  = cartAfter validateCartItems w.
Proof.
  assert (H : validateCartItems (snd (validateCartItems w))
              = (Returned tt, snd (validateCartItems w))).
  { destruct (validateCartItems_outcome w) as [Hu|(_ & _ & Hm)].
    - rewrite Hu. simpl. exact Hu.
    - rewrite Hm. simpl. apply validateCartItems_all_found.
      destruct (storageWritable w); simpl; apply refreshed_all_found. }
  split; [exact H|]. unfold cartAfter.
  unfold mbind at 1, M_bind, bind at 1.
  destruct (validateCartItems w) as [[[]|e] w'] eqn:E; simpl in *.
  - rewrite H. reflexivity.
  - reflexivity.
Qed.

(** When the catalog is loaded and at least one line has no product,
    the cart that reconciliation leaves is shorter, and each of its lines
    is an old line of a product in the catalog, with that product's
    current name, price and main image and the old line's id, quantity,
    color, size and time stamp; no line without a product remains. *)
Theorem validateCartItems_refreshes_on_drop (w : World) :
  DataManager.isProductsLoaded (products w) = true ->
  anyMissing (products w) (cart w) = true ->
  (length (cartAfter validateCartItems w) < length (cart w))%nat /\
  anyMissing (products w) (cartAfter validateCartItems w) = false /\
  (forall line,
     In line (cartAfter validateCartItems w) ->
     exists old product,
       In old (cart w) /\
       DataManager.getProductById (products w) (CartLine.id line)
       = Some product /\
       CartLine.name line = Product.name product /\
       CartLine.price line = Product.price product /\
       CartLine.image line = Product.mainImage product /\
       CartLine.id line = CartLine.id old /\
       CartLine.quantity line = CartLine.quantity old /\
       CartLine.color line = CartLine.color old /\
       CartLine.size line = CartLine.size old /\
       CartLine.addedAt line = CartLine.addedAt old).
Proof.
  intros Hl Hm. destruct (validateCartItems_missing w Hl Hm) as [-> _].
  split; [apply refreshed_length; exact Hm|].
  split; [apply refreshed_all_found|].
  intros line Hin. apply refreshed_In in Hin.
  destruct Hin as (old & product & Hold & Hp & ->).
  exists old, product. simpl. repeat split; assumption.
Qed.

Lemma validateCartItems_refreshes_on_drop_witness :
  (length (cartAfter validateCartItems
                     (worldOf [lineOf 2; staleLine] [currentP1]))
   < 2)%nat.
Proof.
  apply (validateCartItems_refreshes_on_drop
           (worldOf [lineOf 2; staleLine] [currentP1]));
    reflexivity.
Defined.

(* ===================================================================== *)
(** ** Data Manager: lookups and the featured list *)
(* ===================================================================== *)

(** [getProductById] returns the first product of the catalog whose id
    is the given one, and [null] exactly when no product has that id. *)
Theorem getProductById_first (catalog : list Product.t)
  (productId : jsval) :
  match DataManager.getProductById catalog productId with
  | Some product =>
      Product.id product = productId /\
      exists before after,
        catalog = before ++ product :: after /\
        Forall (fun other => Product.id other <> productId) before
  | None => Forall (fun other => Product.id other <> productId) catalog
  end.
Proof.
  unfold DataManager.getProductById.
  induction catalog as [|p catalog IH]; simpl; [constructor|].
  destruct (strictEq (Product.id p) productId) eqn:E.
  - apply strictEq_eq in E. split; [exact E|].
    exists [], catalog. split; [reflexivity | constructor].
  - assert (Hne : Product.id p <> productId).
    { intros H. apply strictEq_eq in H. congruence. }
    destruct (find _ catalog) as [q|].
    + destruct IH as (Hq & before & after & -> & Hb). split; [exact Hq|].
      exists (p :: before), after. split; [reflexivity|].
      constructor; assumption.
    + constructor; assumption.
Qed.

Lemma processProducts_flags
  (parseInt : jsval -> option Z) (randomIndex : nat -> nat)
  (raws : list RawProduct.t) (p : Product.t) :
  In p (DataManager.processProducts parseInt randomIndex raws) ->
  DataManager.keepProduct p = true /\
  Product.inStock p = true /\ Product.featured p = false.
Proof.
  intros H. apply processProducts_In in H.
  destruct H as ((k & raw & _ & ->) & Hkeep). auto.
Qed.

Lemma filter_none {A : Type} (f : A -> bool) (l : list A) :
  (forall x, In x l -> f x = false) -> List.filter f l = [].
Proof.
  induction l as [|x l IH]; intros H; simpl; [reflexivity|].
  rewrite (H x (or_introl eq_refl)). apply IH.
  intros y Hy. apply H. right. exact Hy.
Qed.

(** No product that comes out of [processProducts] is marked featured,
    so [getFeaturedProducts] on such a catalog is empty for every
    limit. *)
Theorem getFeaturedProducts_of_processed
  (parseInt : jsval -> option Z) (randomIndex : nat -> nat)
  (raws : list RawProduct.t) (limit : option Z) :
  DataManager.getFeaturedProducts limit
    (DataManager.processProducts parseInt randomIndex raws) = [].
Proof.
  unfold DataManager.getFeaturedProducts.
  rewrite filter_none.
  - unfold DataManager.sliceFromStart. apply take_nil.
  - intros p Hp.
    apply (processProducts_flags parseInt randomIndex raws p Hp).
Qed.

(** [getFeaturedProducts] returns featured products of the catalog only,
    and with a limit of 0 or more never more than the limit. *)
Theorem getFeaturedProducts_bounded (limit : Z)
  (catalog : list Product.t) :
  0 <= limit ->
  (Z.of_nat (length (DataManager.getFeaturedProducts (Some limit) catalog))
   <= limit) /\
  (forall p,
     In p (DataManager.getFeaturedProducts (Some limit) catalog) ->
     In p catalog /\ Product.featured p = true).
Proof.
  intros Hl. unfold DataManager.getFeaturedProducts,
    DataManager.sliceFromStart.
  replace (limit <? 0) with false by (symmetry; apply Z.ltb_ge; lia).
  split.
  - rewrite length_take. lia.
  - intros p Hp. apply filter_In.
    apply list_elem_of_In in Hp. apply list_elem_of_In.
    exact (subseteq_take _ _ _ Hp).
Qed.

Lemma getFeaturedProducts_bounded_witness :
  Z.of_nat (length (DataManager.getFeaturedProducts (Some 8) [currentP1]))
  <= 8.
Proof.
  apply (getFeaturedProducts_bounded 8 [currentP1]). lia.
Defined.

(* ===================================================================== *)
(** ** Data Manager: fetching, the cache, searching *)
(* ===================================================================== *)

Section FetchFacts.

Variable parseInt : jsval -> option Z.
Variable randomIndex : nat -> nat.

(** A fetch replaces the catalog only when it was not already loading
    and the request delivered data.  A store that is already loading is
    left exactly as it is; a request that fails in any way keeps the
    catalog and the cache, logs the error, shows the load-failed
    notification and ends with the loading flag off.  In every case the
    returned list is the catalog of the resulting store. *)
Theorem fetchAllProducts_keeps_catalog (now : Z)
  (response : DataManager.Response) (st : DataManager.Store) :
  let result := DataManager.fetchAllProducts parseInt randomIndex now
                  response st in
  fst result = DataManager.products (snd result) /\
  (DataManager.isLoading st = true -> snd result = st) /\
  (DataManager.isLoading st = false ->
   DataManager.isLoading (snd result) = false) /\
  (DataManager.products (snd result) <> DataManager.products st ->
   DataManager.isLoading st = false /\
   exists data, response = DataManager.ApiData data) /\
  (DataManager.isLoading st = false ->
   (forall data, response <> DataManager.ApiData data) ->
   DataManager.products (snd result) = DataManager.products st /\
   DataManager.cache (snd result) = DataManager.cache st /\
   DataManager.log (snd result)
   = DataManager.log st
     ++ [DataManager.ConsoleError (u16 "Error fetching products:");
         DataManager.Notify DataManager.msgLoadFailed (u16 "error")]).
Proof.
  unfold DataManager.fetchAllProducts.
  destruct (DataManager.isLoading st) eqn:El.
  - simpl. repeat split; try discriminate; congruence.
  - assert (Hfail :
      let failed :=
        DataManager.record
          (DataManager.Notify DataManager.msgLoadFailed (u16 "error"))
          (DataManager.record
             (DataManager.ConsoleError (u16 "Error fetching products:"))
             (DataManager.setLoading true st)) in
      DataManager.products failed = DataManager.products st /\
      DataManager.cache failed = DataManager.cache st /\
      DataManager.log failed
      = DataManager.log st
        ++ [DataManager.ConsoleError (u16 "Error fetching products:");
            DataManager.Notify DataManager.msgLoadFailed (u16 "error")]).
    { simpl. rewrite <- app_assoc. auto. }
    destruct response as [|status| |error|data]; cbn [fst snd];
      (split; [reflexivity|]); (split; [discriminate|]);
      (split; [reflexivity|]); split;
      try (intros H; simpl in H; congruence);
      try (intros _ _; exact Hfail).
    + intros _. split; [reflexivity|]. exists data. reflexivity.
    + intros _ H. destruct (H data eq_refl).
Qed.

(** A fetch that delivers data on a store that is not loading and has
    writable storage makes the catalog the processed records, each with
    a non-empty id and name and a price above 0; writes that catalog to
    the cache with the time of the write; announces it once; and ends
    with the loading flag off. *)
Theorem fetchAllProducts_success (now : Z) (data : list RawProduct.t)
  (st : DataManager.Store) :
  DataManager.isLoading st = false ->
  DataManager.cacheWritable st = true ->
  let st' := snd (DataManager.fetchAllProducts parseInt randomIndex now
                    (DataManager.ApiData data) st) in
  DataManager.products st'
  = DataManager.processProducts parseInt randomIndex data /\
  Forall (fun p => nonEmpty (Product.id p) /\ nonEmpty (Product.name p)
                   /\ 0 < Product.price p)
         (DataManager.products st') /\
  DataManager.cache st'
  = DataManager.CachedAt (DataManager.products st') now /\
  DataManager.isLoading st' = false /\
  DataManager.log st'
  = DataManager.log st
    ++ [DataManager.ProductsLoaded (DataManager.products st')].
Proof.
  intros Hl Hw. unfold DataManager.fetchAllProducts. rewrite Hl.
  unfold DataManager.saveToCache. simpl. rewrite Hw. simpl.
  repeat split.
  apply Forall_forall. intros p Hp. apply list_elem_of_In in Hp.
  apply keepProduct_conditions.
  apply (processProducts_flags parseInt randomIndex data p Hp).
Qed.

Lemma fetch_writes_cache (now : Z) (data : list RawProduct.t)
  (st : DataManager.Store) :
  DataManager.isLoading st = false ->
  DataManager.cacheWritable st = true ->
  DataManager.cache
    (snd (DataManager.fetchAllProducts parseInt randomIndex now
            (DataManager.ApiData data) st))
  = DataManager.CachedAt
      (DataManager.products
         (snd (DataManager.fetchAllProducts parseInt randomIndex now
                 (DataManager.ApiData data) st))) now.
Proof.
  intros Hl Hw. unfold DataManager.fetchAllProducts. rewrite Hl.
  unfold DataManager.saveToCache. simpl. rewrite Hw. reflexivity.
Qed.

(** The cached catalog comes back within five minutes and not after:
    once a fetch has written the cache at time [now], a store that finds
    that cache entry loads the same catalog when fewer than 300000 ms
    have passed, and is left untouched otherwise. *)
Theorem catalog_cache_round_trip (now later : Z)
  (data : list RawProduct.t) (st fresh : DataManager.Store) :
  DataManager.isLoading st = false ->
  DataManager.cacheWritable st = true ->
  DataManager.cache fresh
  = DataManager.cache
      (snd (DataManager.fetchAllProducts parseInt randomIndex now
              (DataManager.ApiData data) st)) ->
  (later - now < 300000 ->
   DataManager.products (DataManager.loadCachedData later fresh)
   = DataManager.products
       (snd (DataManager.fetchAllProducts parseInt randomIndex now
               (DataManager.ApiData data) st))) /\
  (300000 <= later - now ->
   DataManager.loadCachedData later fresh = fresh).
Proof.
  intros Hl Hw Hc.
  rewrite (fetch_writes_cache now data st Hl Hw) in Hc.
  unfold DataManager.loadCachedData. rewrite Hc.
  unfold DataManager.cacheDuration. split; intros H.
  - replace (later - now <? 5 * 60 * 1000) with true
      by (symmetry; apply Z.ltb_lt; lia).
    reflexivity.
  - replace (later - now <? 5 * 60 * 1000) with false
      by (symmetry; apply Z.ltb_ge; lia).
    reflexivity.
Qed.

End FetchFacts.

Lemma fetchAllProducts_success_witness :
  DataManager.cache
    (snd (DataManager.fetchAllProducts parseIntDecimal (fun _ => O) 1000
            (DataManager.ApiData [DataManager.rawBib])
            DataManager.emptyStore))
  = DataManager.CachedAt
      (DataManager.processProducts parseIntDecimal (fun _ => O)
         [DataManager.rawBib]) 1000.
Proof.
  destruct (fetchAllProducts_success parseIntDecimal (fun _ => O) 1000
              [DataManager.rawBib] DataManager.emptyStore
              eq_refl eq_refl) as (Hp & _ & Hc & _).
  rewrite Hc, Hp. reflexivity.
Defined.

Lemma catalog_cache_round_trip_witness :
  DataManager.loadCachedData 301000
    (DataManager.mkStore [] []
       (DataManager.cache
          (snd (DataManager.fetchAllProducts parseIntDecimal (fun _ => O)
                  1000 (DataManager.ApiData [DataManager.rawBib])
                  DataManager.emptyStore)))
       true false [])
  = DataManager.mkStore [] []
      (DataManager.cache
         (snd (DataManager.fetchAllProducts parseIntDecimal (fun _ => O)
                 1000 (DataManager.ApiData [DataManager.rawBib])
                 DataManager.emptyStore)))
      true false [].
Proof.
  apply (catalog_cache_round_trip parseIntDecimal (fun _ => O) 1000 301000
           [DataManager.rawBib] DataManager.emptyStore);
    [reflexivity | reflexivity | reflexivity | lia].
Defined.

Section SearchFacts.

Variable toLowerCase : jsstring -> jsstring.

Lemma filterOrThrow_throws {A : Type} (f : A -> option bool)
  (l : list A) (x : A) :
  In x l -> f x = None -> DataManager.filterOrThrow f l = None.
Proof.
  induction l as [|y l IH]; intros Hin Hx; [destruct Hin|].
  simpl. destruct Hin as [->|Hin].
  - rewrite Hx. reflexivity.
  - destruct (f y); [|reflexivity]. rewrite (IH Hin Hx). reflexivity.
Qed.

Lemma filterOrThrow_returns {A : Type} (f : A -> option bool)
  (g : A -> bool) (l : list A) :
  (forall x, In x l -> f x = Some (g x)) ->
  DataManager.filterOrThrow f l = Some (List.filter g l).
Proof.
  induction l as [|y l IH]; intros H; simpl; [reflexivity|].
  rewrite (H y (or_introl eq_refl)), IH.
  - destruct (g y); reflexivity.
  - intros x Hx. apply H. right. exact Hx.
Qed.

(** A search with a non-empty query throws a TypeError as soon as the
    catalog holds a product whose name does not contain the lowered
    query and whose description is missing or [null]. *)
Theorem searchProducts_throws (text name : jsstring)
  (catalog : list Product.t) (product : Product.t) :
  text <> [] ->
  In product catalog ->
  Product.name product = Str name ->
  includes (toLowerCase name) (toLowerCase text) = false ->
  Product.description product = Undefined
  \/ Product.description product = Null ->
  DataManager.searchProducts toLowerCase (Str text) catalog = None.
Proof.
  intros Hne Hin Hname Hmiss Hdesc.
  destruct text as [|c text]; [contradiction|].
  unfold DataManager.searchProducts. simpl.
  apply (filterOrThrow_throws _ catalog product Hin).
  unfold DataManager.searchHit, DataManager.lowerOf.
  rewrite Hname, Hmiss. destruct Hdesc as [->| ->]; reflexivity.
Qed.

(** On a catalog whose products all have a string name, description,
    category and color, a search with a non-empty query returns, in
    catalog order, exactly the products one of whose four lowered fields
    contains the lowered query. *)
Theorem searchProducts_complete_catalog (text : jsstring)
  (catalog : list Product.t) :
  text <> [] ->
  Forall (fun p => exists n d c k,
            Product.name p = Str n /\ Product.description p = Str d /\
            Product.category p = Str c /\ Product.color p = Str k)
         catalog ->
  exists result,
    DataManager.searchProducts toLowerCase (Str text) catalog
    = Some result /\
    sublist result catalog /\
    (forall p,
       In p result
       <-> In p catalog /\
           exists field,
             In (Str field) [Product.name p; Product.description p;
                             Product.category p; Product.color p] /\
             occursIn (toLowerCase text) (toLowerCase field)).
Proof.
  intros Hne Hall. destruct text as [|ch text]; [contradiction|].
  set (term := toLowerCase (ch :: text)).
  set (hit := fun p : Product.t =>
                match DataManager.searchHit toLowerCase term p with
                | Some b => b
                | None => false
                end).
  exists (List.filter hit catalog).
  rewrite Forall_forall in Hall.
  split; [|split].
  - unfold DataManager.searchProducts. simpl. fold term.
    apply filterOrThrow_returns. intros p Hp.
    apply list_elem_of_In in Hp.
    destruct (Hall p Hp) as (n & d & c & k & Hn & Hd & Hc & Hk).
    unfold hit, DataManager.searchHit, DataManager.lowerOf.
    rewrite Hn, Hd, Hc, Hk.
    destruct (includes (toLowerCase n) term);
      destruct (includes (toLowerCase d) term);
      destruct (includes (toLowerCase c) term); reflexivity.
  - clear. induction catalog as [|p l IH]; simpl; [constructor|].
    destruct (hit p); [apply sublist_skip | apply sublist_cons];
      exact IH.
  - intros p. rewrite filter_In. split.
    + intros [Hp Hhit]. split; [exact Hp|].
      apply list_elem_of_In in Hp.
      destruct (Hall p Hp) as (n & d & c & k & Hn & Hd & Hc & Hk).
      unfold hit, DataManager.searchHit, DataManager.lowerOf in Hhit.
      rewrite Hn, Hd, Hc, Hk in *.
      destruct (includes (toLowerCase n) term) eqn:E1;
        [exists n; split; [simpl; auto | apply includes_occursIn, E1]|].
      destruct (includes (toLowerCase d) term) eqn:E2;
        [exists d; split; [simpl; auto | apply includes_occursIn, E2]|].
      destruct (includes (toLowerCase c) term) eqn:E3;
        [exists c; split; [simpl; auto | apply includes_occursIn, E3]|].
      exists k. split; [simpl; auto | apply includes_occursIn, Hhit].
    + intros [Hp (field & Hf & Hocc)]. split; [exact Hp|].
      apply list_elem_of_In in Hp.
      destruct (Hall p Hp) as (n & d & c & k & Hn & Hd & Hc & Hk).
      unfold hit, DataManager.searchHit, DataManager.lowerOf.
      rewrite Hn, Hd, Hc, Hk in *.
      apply includes_occursIn in Hocc. fold term in Hocc.
      simpl in Hf.
      destruct (includes (toLowerCase n) term) eqn:E1; [reflexivity|].
      destruct (includes (toLowerCase d) term) eqn:E2; [reflexivity|].
      destruct (includes (toLowerCase c) term) eqn:E3; [reflexivity|].
      destruct Hf as [Hf|[Hf|[Hf|[Hf|[]]]]]; injection Hf as <-;
        congruence.
Qed.

End SearchFacts.

(** A record without a description passes the catalog filter, and a
    search for a word that is not in its name then throws. *)
Lemma searchProducts_throws_witness :
  DataManager.searchProducts toLowerCaseBasic (Str (u16 "romper"))
    (DataManager.processProducts parseIntDecimal (fun _ => O)
       [DataManager.rawBib])
  = None.
Proof.
  apply (searchProducts_throws toLowerCaseBasic (u16 "romper") (u16 "Bib")
           _ (DataManager.mapProduct parseIntDecimal (fun _ => O) 0
                DataManager.rawBib)).
  - discriminate.
  - vm_compute. left. reflexivity.
  - reflexivity.
  - vm_compute. reflexivity.
  - right. reflexivity.
Defined.

Lemma searchProducts_complete_catalog_witness :
  exists result,
    DataManager.searchProducts toLowerCaseBasic (Str (u16 "ROMPER"))
      [DataManager.completeProduct] = Some result.
Proof.
  destruct (searchProducts_complete_catalog toLowerCaseBasic
              (u16 "ROMPER") [DataManager.completeProduct]) as (result & H & _).
  - discriminate.
  - constructor; [|constructor]. unfold DataManager.completeProduct. simpl.
    do 4 eexists. repeat split; reflexivity.
  - exists result. exact H.
Defined.

(* ===================================================================== *)
(** ** Utilities: descriptions *)
(* ===================================================================== *)

Lemma replaceNewlines_clean (s : jsstring) :
  ~ In 10%N (Utils.replaceNewlines s).
Proof.
  induction s as [|c s IH]; simpl; [tauto|].
  destruct (c =? 10)%N eqn:E.
  - simpl. intros [H|[H|[H|[H|H]]]]; try discriminate. exact (IH H).
  - apply N.eqb_neq in E. simpl. intros [H|H]; [congruence | exact (IH H)].
Qed.

(** The formatted description never holds a line feed, and a
    description without line feeds is returned as it is. *)
Theorem formatDescription_no_newline (description : jsval) :
  ~ In 10%N (Utils.formatDescription description) /\
  (forall text : jsstring,
     description = Str text -> ~ In 10%N text ->
     Utils.formatDescription description = text).
Proof.
  split.
  - destruct description as [| |[|c s]]; simpl; try tauto.
    apply (replaceNewlines_clean (c :: s)).
  - intros text -> Hno. destruct text as [|c s]; [reflexivity|].
    unfold Utils.formatDescription. cbn [truthy negb].
    induction (c :: s) as [|d r IH]; simpl; [reflexivity|].
    destruct (d =? 10)%N eqn:E.
    + apply N.eqb_eq in E. subst d. destruct Hno. left. reflexivity.
    + rewrite IH; [reflexivity|]. intros H. apply Hno. right. exact H.
Qed.

Lemma formatDescription_no_newline_witness :
  Utils.formatDescription (Str (u16 "Soft cotton")) = u16 "Soft cotton".
Proof.
  destruct (formatDescription_no_newline (Str (u16 "Soft cotton")))
    as [_ H].
  apply H; [reflexivity|].
  vm_compute. intuition discriminate.
Defined.

Lemma fetchAllProducts_keeps_catalog_witness :
  DataManager.products
    (snd (DataManager.fetchAllProducts parseIntDecimal (fun _ => O) 1000
            DataManager.FetchRejected
            (DataManager.mkStore [currentP1] [] DataManager.NoCache true
                                 false [])))
  = [currentP1].
Proof.
  destruct (fetchAllProducts_keeps_catalog parseIntDecimal (fun _ => O)
              1000 DataManager.FetchRejected
              (DataManager.mkStore [currentP1] [] DataManager.NoCache true
                                   false []))
    as (_ & _ & _ & _ & H).
  destruct H as (H & _); [reflexivity | discriminate | exact H].
Defined.
